(** * nxos_grpc.client: a shallow embedding of [Client] and its properties

    The development follows [src/nxos_grpc/client.py].  Python values are
    modelled as follows.

    - [str] is [string]; a character is read as a code point in
      U+0000..U+00FF.
    - A [dict] is an association list in insertion order with unique keys
      (the iteration order of [dict] since Python 3.7, which is the order
      [json.dumps] writes).
    - A [set] of strings is a [gset string].
    - A raised exception is the [Raise] case of [result].
    - Optional (keyword) parameters are [option]s; [None] selects the default
      of the signature. *)

From Stdlib Require Import ZArith NArith Ascii String DecimalString.
From stdpp Require Import base option list strings gmap.

Local Open Scope string_scope.
Set Warnings "-register-all".

(** ** Exceptions and results *)

Inductive exn : Type :=
| ValueError (args : list string)
| OSError (args : list string)
| RpcError (details : string)
| RecursionError.

Inductive result (A : Type) : Type :=
| Ok (a : A)
| Raise (e : exn).

Arguments Ok {A} a.
Arguments Raise {A} e.

#[global] Instance result_ret : MRet result := fun A a => Ok a.

#[global] Instance result_bind : MBind result := fun A B k r =>
  match r with
  | Ok a => k a
  | Raise e => Raise e
  end.

(** ** Python string operations used by the client *)

Module PyStr.

Definition dquote : ascii := ascii_of_N 34.
Definition backslash : ascii := ascii_of_N 92.

Definition chr (c : ascii) : string := String c "".

(** [qq s] is [s] with every apostrophe replaced by a double quote; it
    only serves to write expected JSON texts legibly. *)
Fixpoint qq (s : string) : string :=
  match s with
  | "" => ""
  | String c s' => String (if Ascii.eqb c "'" then dquote else c) (qq s')
  end.

(** [bool(s)] *)
Definition truthy (s : string) : bool :=
  match s with
  | "" => false
  | _ => true
  end.

(** [c in s] for a one-character [c] *)
Fixpoint mem (c : ascii) (s : string) : bool :=
  match s with
  | "" => false
  | String d s' => Ascii.eqb d c || mem c s'
  end.

(** [s.split(sep)] for a one-character separator *)
Fixpoint split (sep : ascii) (s : string) : list string :=
  match s with
  | "" => [""]
  | String c s' =>
      if Ascii.eqb c sep then "" :: split sep s'
      else match split sep s' with
           | w :: ws => String c w :: ws
           | [] => [chr c]
           end
  end.

(** [s[:n]] and [s[n:]] for [0 <= n] *)
Fixpoint take (n : nat) (s : string) : string :=
  match n, s with
  | S n', String c s' => String c (take n' s')
  | _, _ => ""
  end.

Fixpoint drop (n : nat) (s : string) : string :=
  match n, s with
  | S n', String _ s' => drop n' s'
  | _, _ => s
  end.

(** [s.find(c)] for a one-character [c]; [None] stands for [-1]. *)
Fixpoint find (c : ascii) (s : string) : option nat :=
  match s with
  | "" => None
  | String d s' => if Ascii.eqb d c then Some 0 else S <$> find c s'
  end.

(** [s.find(c, start)] *)
Definition find_from (c : ascii) (start : nat) (s : string) : option nat :=
  if decide (start <= String.length s)%nat
  then (fun i => start + i) <$> find c (drop start s)
  else None.

(** [s.startswith(p)] *)
Fixpoint startswith (p s : string) : bool :=
  match p, s with
  | "", _ => true
  | String a p', String b s' => Ascii.eqb a b && startswith p' s'
  | _, "" => false
  end.

(** [sub in s] *)
Fixpoint contains (sub s : string) : bool :=
  startswith sub s
  || match s with
     | "" => false
     | String _ s' => contains sub s'
     end.

(** [s.lstrip(chars)], the set of characters given as a predicate *)
Fixpoint lstrip (chars : ascii -> bool) (s : string) : string :=
  match s with
  | "" => ""
  | String c s' => if chars c then lstrip chars s' else s
  end.

(** [s.replace(c, "")] for a one-character [c] *)
Fixpoint remove (c : ascii) (s : string) : string :=
  match s with
  | "" => ""
  | String d s' => if Ascii.eqb d c then remove c s' else String d (remove c s')
  end.

(** [s.partition(c)]: head, separator and tail around the first [c];
    [(s, "", "")] when there is none. *)
Fixpoint partition (c : ascii) (s : string) : string * string * string :=
  match s with
  | "" => ("", "", "")
  | String d s' =>
      if Ascii.eqb d c then ("", chr c, s')
      else let '(h, sep, t) := partition c s' in (String d h, sep, t)
  end.

(** [s.rpartition(c)]: the same around the last [c]; [("", "", s)] when
    there is none. *)
Fixpoint rpartition (c : ascii) (s : string) : string * string * string :=
  match s with
  | "" => ("", "", "")
  | String d s' =>
      let '(h, sep, t) := rpartition c s' in
      if truthy sep then (String d h, sep, t)
      else if Ascii.eqb d c then ("", chr c, t)
      else ("", "", String d t)
  end.

Fixpoint forallb (p : ascii -> bool) (s : string) : bool :=
  match s with
  | "" => true
  | String c s' => p c && forallb p s'
  end.

Definition between (lo hi : N) (c : ascii) : bool :=
  (N.leb lo (N_of_ascii c) && N.leb (N_of_ascii c) hi)%bool.

Definition is_ascii_digit : ascii -> bool := between 48 57.
Definition is_ascii_upper : ascii -> bool := between 65 90.
Definition is_ascii_lower : ascii -> bool := between 97 122.
Definition is_ascii_alpha (c : ascii) : bool := is_ascii_upper c || is_ascii_lower c.

(** [s.isdigit() and s.isascii()] *)
Definition isdigit_ascii (s : string) : bool :=
  truthy s && forallb is_ascii_digit s.

(** [s.isascii()] *)
Definition isascii : string -> bool := forallb (between 0 127).

(** [c.lower()] on U+0000..U+00FF: the letters [A-Z] and the Latin-1
    capitals U+00C0..U+00DE, the multiplication sign U+00D7 apart, move up
    by 32. *)
Definition lower_char (c : ascii) : ascii :=
  if (is_ascii_upper c
      || (between 192 222 c && negb (N.eqb (N_of_ascii c) 215)))%bool
  then ascii_of_N (N_of_ascii c + 32)
  else c.

Fixpoint lower (s : string) : string :=
  match s with
  | "" => ""
  | String c s' => String (lower_char c) (lower s')
  end.

(** A character that [lower] neither produces from another one nor
    changes. *)
Definition caseless (c : ascii) : Prop :=
  ∀ d, Ascii.eqb (lower_char d) c = Ascii.eqb d c.

(** [int(s)] for a string of ASCII digits *)
Definition int_of_digits (s : string) : Z :=
  (fix go (acc : Z) (s : string) : Z :=
     match s with
     | "" => acc
     | String c s' => go (10 * acc + Z.of_N (N_of_ascii c - 48))%Z s'
     end) 0%Z s.

(** ["%i" % z] *)
Definition str_of_Z (z : Z) : string := NilZero.string_of_int (Z.to_int z).

(** [s.count(c)] for a one-character [c] *)
Fixpoint count (c : ascii) (s : string) : nat :=
  match s with
  | "" => 0
  | String d s' => (if Ascii.eqb d c then 1 else 0) + count c s'
  end.

(** [sep.join(l)] *)
Fixpoint join (sep : string) (l : list string) : string :=
  match l with
  | [] => ""
  | [x] => x
  | x :: l' => x ++ sep ++ join sep l'
  end.

End PyStr.

(** ** The Python platform under the client

    What the standard library decides with tables or the file system, and
    the frames the interpreter has left, are left open: the client's
    properties hold whatever these are. *)

Class Platform : Type := {
  (** [urllib.parse._check_bracketed_host]: [true] when it returns, [false]
      when it raises [ValueError] (it consults [ipaddress] and [re]) *)
  check_bracketed_host : string -> bool;
  (** [unicodedata.normalize('NFKC', s)] *)
  normalize_NFKC : string -> string;
  (** [open(path, "rb").read()] *)
  read_file : string -> result string;
  (** The objects nested below the outermost one that [json.dumps] can
      encode when the client calls it: every nested object takes a frame of
      the interpreter, and the frames end at its recursion limit (about 990
      with the limit of 1000 and a short call stack). *)
  json_nesting : nat;
}.

(** ** JSON values and [json.dumps] *)

Module Json.
Import PyStr.

Inductive json : Type :=
| JStr (s : string)
| JObj (items : list (string * json)).

Definition dict : Type := list (string * json).

(** [d[k] = v]: an existing key keeps its position, a new key is added
    last. *)
Fixpoint setitem (k : string) (v : json) (d : dict) : dict :=
  match d with
  | [] => [(k, v)]
  | (k', v') :: d' =>
      if String.eqb k' k then (k', v) :: d' else (k', v') :: setitem k v d'
  end.

Definition hex_digit (n : N) : ascii :=
  match String.get (N.to_nat n) "0123456789abcdef" with
  | Some c => c
  | None => "0"%char
  end.

(** ['{0:04x}'.format(n)] for [n < 0x10000] *)
Definition hex4 (n : N) : string :=
  String (hex_digit (N.modulo (N.div n 4096) 16))
    (String (hex_digit (N.modulo (N.div n 256) 16))
       (String (hex_digit (N.modulo (N.div n 16) 16))
          (String (hex_digit (N.modulo n 16)) ""))).

(** The replacement [py_encode_basestring_ascii] makes for one character:
    [ESCAPE_DCT] first, then [\uXXXX] for whatever lies outside
    [' '..'~']. *)
Definition escape_char (c : ascii) : string :=
  let n := N_of_ascii c in
  if Ascii.eqb c backslash then String backslash (chr backslash)
  else if Ascii.eqb c dquote then String backslash (chr dquote)
  else if N.eqb n 8 then String backslash "b"
  else if N.eqb n 12 then String backslash "f"
  else if N.eqb n 10 then String backslash "n"
  else if N.eqb n 13 then String backslash "r"
  else if N.eqb n 9 then String backslash "t"
  else if (N.ltb n 32 || N.ltb 126 n)%bool then String backslash ("u" ++ hex4 n)
  else chr c.

Fixpoint escape (s : string) : string :=
  match s with
  | "" => ""
  | String c s' => escape_char c ++ escape s'
  end.

Definition encode_basestring_ascii (s : string) : string :=
  chr dquote ++ escape s ++ chr dquote.

(** The text of a value, with the default separators [", "] and [": "]:
    what [json.dumps] returns when it returns. *)
Fixpoint text (j : json) : string :=
  match j with
  | JStr s => encode_basestring_ascii s
  | JObj items =>
      "{" ++ join ", "
               (map (fun kv => encode_basestring_ascii (fst kv) ++ ": " ++ text (snd kv))
                  items)
          ++ "}"
  end.

(** The objects nested in a value, the value itself included. *)
Fixpoint nesting (j : json) : nat :=
  match j with
  | JStr _ => 0
  | JObj items => S (max_list_with (fun kv => nesting (snd kv)) items)
  end.

(** The encoder behind [json.dumps]: it enters a recursive call for every
    object, empty or not, and raises [RecursionError] when no frame is left
    for it; the items of an object are encoded in order. *)
Fixpoint encode_rec (frames : nat) (j : json) : result string :=
  match j with
  | JStr s => Ok (encode_basestring_ascii s)
  | JObj items =>
      match frames with
      | O => Raise RecursionError
      | S frames =>
          parts ← mapM (fun kv =>
                          v ← encode_rec frames (snd kv);
                          Ok (encode_basestring_ascii (fst kv) ++ ": " ++ v))
                       items;
          Ok ("{" ++ join ", " parts ++ "}")
      end
  end.

(** [json.dumps(j)]: the outermost object and [json_nesting] levels below
    it can be encoded. *)
Definition dumps `{Platform} (j : json) : result string :=
  encode_rec (S json_nesting) j.

End Json.

(** ** The path compiler: [Client.__parse_xpath_to_json] *)

Module PathCompiler.
Import PyStr Json.

(** One turn of the loop over [reversed(xpath_split)]; the state is
    [(xpath_dict, first)]. *)
Definition loop_body (st : dict * bool) (element : string) : dict * bool :=
  let '(xpath_dict, first) := st in
  if first then (setitem element (JObj []) xpath_dict, false)
  else ([(element, JObj xpath_dict)], first).

(** [xpath_dict] as it stands just before [json.dumps]. *)
Definition xpath_to_dict (xpath namespace : string) : dict :=
  let xpath_dict := [] in
  let xpath_split := split "/" xpath in
  let '(xpath_dict, _) := fold_left loop_body (rev xpath_split) (xpath_dict, true) in
  setitem "namespace" (JStr namespace) xpath_dict.

Definition parse_xpath_to_json `{Platform} (xpath : string)
  (namespace : option string) : result string :=
  match namespace with
  | None | Some "" =>
      Raise (ValueError ["Must include namespace if constructing from xpath!"])
  | Some namespace => dumps (JObj (xpath_to_dict xpath namespace))
  end.

(** The compiled path is within what [json.dumps] can encode: the path has
    no more elements than objects can be nested, or its first element is
    [namespace], which leaves a flat object. *)
Definition encodable `{Platform} (xpath : string) : bool :=
  String.eqb (hd "" (split "/" xpath)) "namespace"
  || (length (split "/" xpath) <=? json_nesting)%nat.

(** The container hierarchy of a list of path elements, outermost first:
    the last element holds an empty object. *)
Fixpoint nest (elements : list string) : dict :=
  match elements with
  | [] => []
  | [e] => [(e, JObj [])]
  | e :: es => [(e, JObj (nest es))]
  end.

End PathCompiler.

(** ** [urllib.parse.urlparse], as far as the client reads its result

    Modelled after [urllib/parse.py] of CPython 3.11.  The client reads
    [netloc], [scheme], [hostname] and [port]; the path, parameters, query
    and fragment are split off after the authority and never raise, so they
    are left out of the result. *)

Module Urllib.
Import PyStr.

Record ParseResult : Type := { scheme : string; netloc : string }.

Definition scheme_chars (c : ascii) : bool :=
  is_ascii_lower c || is_ascii_upper c || is_ascii_digit c || mem c "+-.".

Definition WHATWG_C0_CONTROL_OR_SPACE (c : ascii) : bool :=
  N.leb (N_of_ascii c) 32.

Definition UNSAFE_URL_BYTES_TO_REMOVE : list ascii :=
  [ascii_of_N 9; ascii_of_N 13; ascii_of_N 10].

Definition splitnetloc (url : string) (start : nat) : string * string :=
  let delim := String.length url in
  let delim :=
    fold_left
      (fun delim c =>
         match find_from c start url with
         | Some wdelim => Nat.min delim wdelim
         | None => delim
         end)
      ["/"; "?"; "#"]%char delim in
  (take (delim - start) (drop start url), drop delim url).

(** The characters an authority cannot hold: the three delimiters that end
    it and the three characters removed from the URL beforehand. *)
Definition excluded : list ascii :=
  (["/"; "?"; "#"]%char ++ UNSAFE_URL_BYTES_TO_REMOVE)%list.

Definition plain (s : string) : Prop :=
  ∀ c, c ∈ excluded → mem c s = false.

(** The characters of a plain host name: ASCII letters, digits, dot and
    hyphen. *)
Definition ldh_char (c : ascii) : bool :=
  is_ascii_lower c || is_ascii_upper c || is_ascii_digit c || mem c ".-".

Section parse.
Context `{Platform}.

Definition checknetloc (netloc : string) : result unit :=
  if negb (truthy netloc) || isascii netloc then Ok ()
  else
    let n := remove "@" netloc in
    let n := remove ":" n in
    let n := remove "#" n in
    let n := remove "?" n in
    let netloc2 := normalize_NFKC n in
    if String.eqb n netloc2 then Ok ()
    else if existsb (fun c => mem c netloc2) ["/"; "?"; "#"; "@"; ":"]%char
    then Raise (ValueError
                  ["netloc '" ++ netloc
                   ++ "' contains invalid characters under NFKC normalization"])
    else Ok ().

Definition check_host (hostname : string) : result unit :=
  if check_bracketed_host hostname then Ok ()
  else Raise (ValueError ["Invalid bracketed host"; hostname]).

Definition check_bracketed_netloc (netloc : string) : result unit :=
  let '(_, _, hostname_and_port) := rpartition "@" netloc in
  let '(before_bracket, have_open_br, bracketed) := partition "[" hostname_and_port in
  if truthy have_open_br then
    if truthy before_bracket then Raise (ValueError ["Invalid IPv6 URL"])
    else
      let '(hostname, _, port) := partition "]" bracketed in
      if truthy port && negb (startswith ":" port)
      then Raise (ValueError ["Invalid IPv6 URL"])
      else check_host hostname
  else
    let '(hostname, _, port) := partition ":" hostname_and_port in
    check_host hostname.

Definition split_scheme (url : string) : string * string :=
  match find ":" url with
  | Some i =>
      if (0 <? i)%nat && forallb is_ascii_alpha (take 1 url)
         && forallb scheme_chars (take i url)
      then (lower (take i url), drop (i + 1) url)
      else ("", url)
  | None => ("", url)
  end.

(** The two bracket checks [urlsplit] makes on the authority it found *)
Definition check_brackets (netloc : string) : result unit :=
  if (mem "[" netloc && negb (mem "]" netloc))
     || (mem "]" netloc && negb (mem "[" netloc))
  then Raise (ValueError ["Invalid IPv6 URL"])
  else if mem "[" netloc && mem "]" netloc
       then check_bracketed_netloc netloc
       else Ok ().

Definition split_authority (url : string) : result (string * string) :=
  if String.eqb (take 2 url) "//" then
    let '(netloc, url) := splitnetloc url 2 in
    _ ← check_brackets netloc;
    Ok (netloc, url)
  else Ok ("", url).

Definition urlsplit (url : string) : result ParseResult :=
  let url := lstrip WHATWG_C0_CONTROL_OR_SPACE url in
  let url := fold_left (fun url b => remove b url) UNSAFE_URL_BYTES_TO_REMOVE url in
  let '(scheme, url) := split_scheme url in
  '(netloc, url) ← split_authority url;
  _ ← checknetloc netloc;
  Ok {| scheme := scheme; netloc := netloc |}.

Definition urlparse (url : string) : result ParseResult := urlsplit url.

End parse.

(** The [_hostinfo] property: host name and port text of the authority,
    the port [None] when empty. *)
Definition hostinfo (r : ParseResult) : string * option string :=
  let '(_, _, hostinfo) := rpartition "@" (netloc r) in
  let '(_, have_open_br, bracketed) := partition "[" hostinfo in
  let '(hostname, port) :=
    if truthy have_open_br then
      let '(hostname, _, port) := partition "]" bracketed in
      let '(_, _, port) := partition ":" port in
      (hostname, port)
    else
      let '(hostname, _, port) := partition ":" hostinfo in
      (hostname, port) in
  (hostname, if truthy port then Some port else None).

Definition hostname (r : ParseResult) : option string :=
  let hostname := fst (hostinfo r) in
  if negb (truthy hostname) then None
  else
    let '(hostname, percent, zone) := partition "%" hostname in
    Some (lower hostname ++ percent ++ zone).

Definition port (r : ParseResult) : result (option Z) :=
  match snd (hostinfo r) with
  | Some port =>
      if isdigit_ascii port then
        let port := int_of_digits port in
        if negb ((0 <=? port)%Z && (port <=? 65535)%Z)
        then Raise (ValueError ["Port out of range 0-65535"])
        else Ok (Some port)
      else Raise (ValueError ["Port could not be cast to integer value as"; port])
  | None => Ok None
  end.

End Urllib.

(** ** The external RPC layer: [grpc] channels and the generated stub

    Channels, credentials and the stub are the values the factory functions
    of [grpc] and [proto] return; they are kept symbolic. *)

Module Grpc.

Inductive channel_credentials : Type :=
| ssl_channel_credentials (root_certificates : string).

Inductive channel : Type :=
| insecure_channel (target : string)
| secure_channel (target : string) (credentials : channel_credentials)
    (options : list (string * string)).

Inductive stub : Type :=
| gRPCConfigOperStub (ch : channel).

(** The methods of the stub *)
Inductive rpc_method : Type :=
| GetOper | Get | GetConfig | EditConfig
| StartSession | CloseSession | KillSession.

(** The argument messages of [proto], with the fields the client sets *)
Inductive request_args : Type :=
| GetOperArgs (ReqID : Z) (YangPath : string)
| GetArgs (ReqID : Z) (YangPath : string)
| GetConfigArgs (ReqID : Z) (Source : string) (YangPath : string)
| EditConfigArgs (YangPath Operation : string) (SessionID ReqID : Z)
    (Target DefOp ErrorOp : string)
| SessionArgs (ReqID : Z)
| CloseSessionArgs (ReqID SessionID : Z)
| KillArgs (ReqID SessionID SessionIDToKill : Z).

Definition ReqID (args : request_args) : Z :=
  match args with
  | GetOperArgs r _ | GetArgs r _ | GetConfigArgs r _ _
  | EditConfigArgs _ _ _ r _ _ _ | SessionArgs r
  | CloseSessionArgs r _ | KillArgs r _ _ => r
  end.

(** One invocation of a stub method: [method(args, timeout=, metadata=)] *)
Record rpc_call : Type := {
  call_stub : stub;
  call_method : rpc_method;
  call_args : request_args;
  call_timeout : Z;
  call_metadata : list (string * string);
}.

End Grpc.

(** ** The client *)

Module Client.
Import PyStr Json PathCompiler Urllib Grpc.

Definition C_MAX_LONG : Z := 2147483647.

Record t : Type := {
  username : string;
  password : string;
  timeout : Z;
  target : string;
  credentials : option string;
  options : list (string * string);
  client : stub;
}.

(** [sys.getrecursionlimit()] *)
Definition recursion_limit : nat := 1000.

(** ["%s" % h] for a host name that may be [None] *)
Definition str_of_hostname (h : option string) : string := default "None" h.

Section construction.
Context `{Platform}.

(** The target as [__gen_target] parses it: behind the prefix, unless the
    prefix occurs in it. *)
Definition prefixed (netloc_prefix target : string) : string :=
  if negb (contains netloc_prefix target) then netloc_prefix ++ target
  else target.

(** [Client.__gen_target]; [depth] counts the frames that are left.  The two
    [logging.debug] calls, one of them under [if parsed_target.scheme], leave
    no trace in the result and are not modelled. *)
Fixpoint gen_target_rec (depth : nat) (target netloc_prefix : string)
  (default_port : Z) : result string :=
  match depth with
  | O => Raise RecursionError
  | S depth =>
      let target := prefixed netloc_prefix target in
      parsed_target ← urlparse target;
      if negb (truthy (netloc parsed_target))
      then Raise (ValueError ["Unable to parse netloc from target URL %s!"; target])
      else
        let target_netloc := netloc parsed_target in
        parsed_port ← port parsed_target;
        match parsed_port with
        | None =>
            let ported_target :=
              str_of_hostname (hostname parsed_target) ++ ":"
              ++ str_of_Z default_port in
            gen_target_rec depth ported_target "//" 50051%Z
        | Some _ => Ok target_netloc
        end
  end.

Definition gen_target (target : string) : result string :=
  gen_target_rec recursion_limit target "//" 50051%Z.

(** The port a target carries, as the first parse of [gen_target] reads it:
    [Ok None] when it carries none. *)
Definition target_port (target : string) : result (option Z) :=
  parsed_target ← urlparse (prefixed "//" target);
  port parsed_target.

(** The host name of a target, as the first parse reads it. *)
Definition target_hostname (target : string) : result (option string) :=
  parsed_target ← urlparse (prefixed "//" target);
  Ok (hostname parsed_target).

(** [Client.__gen_credentials] *)
Definition gen_credentials (credentials : option string)
  (credentials_from_file : bool) : result (option string) :=
  match credentials with
  | None | Some "" => Ok None
  | Some credentials =>
      if credentials_from_file then
        credentials ← read_file credentials;
        Ok (Some credentials)
      else Ok (Some credentials)
  end.

End construction.

(** [Client.__gen_options] *)
Definition gen_options (tls_server_override : option string)
  : list (string * string) :=
  let options := [] in
  match tls_server_override with
  | None | Some "" => options
  | Some tls_server_override =>
      (options ++ [("grpc.ssl_target_name_override", tls_server_override)])%list
  end.

(** [Client.__gen_client] *)
Definition gen_client (target : string) (credentials : option string)
  (options : list (string * string)) : stub :=
  match credentials with
  | None | Some "" =>
      let insecure_channel := insecure_channel target in
      gRPCConfigOperStub insecure_channel
  | Some credentials =>
      let channel_creds := ssl_channel_credentials credentials in
      let secure_channel := secure_channel target channel_creds options in
      gRPCConfigOperStub secure_channel
  end.

(** [Client.__init__]; [int(timeout)] of an integer is that integer. *)
Definition init `{Platform} (target username password : string)
  (timeout : option Z) (credentials : option string)
  (credentials_from_file : bool) (tls_server_override : option string)
  : result t :=
  let timeout := default C_MAX_LONG timeout in
  target ← gen_target target;
  credentials ← gen_credentials credentials credentials_from_file;
  let options := gen_options tls_server_override in
  let client := gen_client target credentials options in
  Ok {| username := username; password := password; timeout := timeout;
        target := target; credentials := credentials; options := options;
        client := client |}.

(** [Client.__validate_enum_arg] *)
Definition validate_enum_arg (name : string) (valid_options : gset string)
  (message : option string) : result unit :=
  if decide (name ∉ valid_options) then
    let message :=
      match message with
      | None | Some "" =>
          name ++ " must be one of " ++ join ", " (elements valid_options)
      | Some message => message
      end in
    Raise (ValueError [message])
  else Ok ().

(** *** Operations

    An operation runs against the device behind the transport: [rpc] gives
    the outcome of a call after the calls made so far, and the state of a
    computation is the list of calls that reached the transport. *)

Definition M (W A : Type) : Type := W -> result A * W.

#[global] Instance M_ret {W} : MRet (M W) := fun A a w => (Ok a, w).

#[global] Instance M_bind {W} : MBind (M W) := fun A B k m w =>
  match m w with
  | (Ok a, w') => k a w'
  | (Raise e, w') => (Raise e, w')
  end.

Definition lift {W A} (r : result A) : M W A := fun w => (r, w).

Section operations.
Context `{Platform}.
Context {raw_reply response : Type}.
Variable rpc : list rpc_call -> rpc_call -> result raw_reply.
Variable build_response : Z -> raw_reply -> result response.

Abbreviation op := (M (list rpc_call)).

(** Calling the bound method [stub.method] *)
Definition invoke (c : rpc_call) : op raw_reply :=
  fun calls => (rpc calls c, (calls ++ [c])%list).

Definition bound_method : Type := request_args -> Z -> list (string * string) -> op raw_reply.

Definition method_of (s : stub) (m : rpc_method) : bound_method :=
  fun request_args timeout metadata =>
    invoke {| call_stub := s; call_method := m; call_args := request_args;
              call_timeout := timeout; call_metadata := metadata |}.

Variable self : t.

(** [Client.__gen_metadata] *)
Definition gen_metadata : list (string * string) :=
  [("username", username self); ("password", password self)].

(** [Client.__fulfill_request]: the request id is read before the call
    is made. *)
Definition fulfill_request (request_method : bound_method)
  (request_args : request_args) : op response :=
  let req_id := ReqID request_args in
  reply ← request_method request_args (timeout self) gen_metadata;
  lift (build_response req_id reply).

Definition get_oper (yang_path : string) (namespace : option string)
  (request_id : option Z) (path_is_payload : option bool) : op response :=
  let request_id := default 0%Z request_id in
  let path_is_payload := default false path_is_payload in
  yang_path ← (if negb path_is_payload
               then lift (parse_xpath_to_json yang_path namespace)
               else mret yang_path);
  let request_args := GetOperArgs request_id yang_path in
  fulfill_request (method_of (client self) GetOper) request_args.

Definition get (yang_path : string) (namespace : option string)
  (request_id : option Z) (path_is_payload : option bool) : op response :=
  let request_id := default 0%Z request_id in
  let path_is_payload := default false path_is_payload in
  yang_path ← (if negb path_is_payload
               then lift (parse_xpath_to_json yang_path namespace)
               else mret yang_path);
  let request_args := GetArgs request_id yang_path in
  fulfill_request (method_of (client self) Get) request_args.

Definition get_config (yang_path : string) (namespace : option string)
  (request_id : option Z) (source : option string)
  (path_is_payload : option bool) : op response :=
  let request_id := default 0%Z request_id in
  let source := default "running" source in
  let path_is_payload := default false path_is_payload in
  _ ← lift (validate_enum_arg source {["running"]} None);
  yang_path ← (if negb path_is_payload
               then lift (parse_xpath_to_json yang_path namespace)
               else mret yang_path);
  let request_args := GetConfigArgs request_id source yang_path in
  fulfill_request (method_of (client self) GetConfig) request_args.

Definition operation_options : gset string :=
  {["merge"; "create"; "replace"; "delete"; "remove"]}.
Definition default_operation_options : gset string :=
  {["merge"; "replace"; "none"]}.
Definition target_options : gset string := {["running"]}.
Definition error_operation_options : gset string :=
  {["roll-back"; "stop"; "continue"]}.

(** The four enumerated arguments of [edit_config] lie in their sets. *)
Definition enums_valid (operation default_operation target error_operation : string)
  : Prop :=
  operation ∈ operation_options
  ∧ default_operation ∈ default_operation_options
  ∧ target ∈ target_options
  ∧ error_operation ∈ error_operation_options.

Definition edit_config (yang_path : string)
  (operation default_operation : option string)
  (session_id request_id : option Z)
  (target error_operation : option string) : op response :=
  let operation := default "merge" operation in
  let default_operation := default "merge" default_operation in
  let session_id := default 0%Z session_id in
  let request_id := default 0%Z request_id in
  let target := default "running" target in
  let error_operation := default "roll-back" error_operation in
  _ ← lift (validate_enum_arg operation operation_options None);
  _ ← lift (validate_enum_arg default_operation default_operation_options None);
  _ ← lift (validate_enum_arg target target_options None);
  _ ← lift (validate_enum_arg error_operation error_operation_options None);
  let request_args :=
    EditConfigArgs yang_path operation session_id request_id target
      default_operation error_operation in
  fulfill_request (method_of (client self) EditConfig) request_args.

Definition start_session (request_id : option Z) : op response :=
  let request_id := default 0%Z request_id in
  let request_args := SessionArgs request_id in
  fulfill_request (method_of (client self) StartSession) request_args.

Definition close_session (session_id : Z) (request_id : option Z)
  : op response :=
  let request_id := default 0%Z request_id in
  let request_args := CloseSessionArgs request_id session_id in
  fulfill_request (method_of (client self) CloseSession) request_args.

Definition kill_session (session_id session_id_to_kill : Z)
  (request_id : option Z) : op response :=
  let request_id := default 0%Z request_id in
  let request_args := KillArgs request_id session_id session_id_to_kill in
  fulfill_request (method_of (client self) KillSession) request_args.

(** The call expected of the dispatcher for [method] and [args]: made on the
    stub of the client, with its timeout and its two metadata pairs. *)
Definition dispatched (method : rpc_method) (args : request_args) : rpc_call :=
  {| call_stub := client self; call_method := method; call_args := args;
     call_timeout := timeout self;
     call_metadata := [("username", username self); ("password", password self)] |}.

(** What a caller gets from a call that reached the transport: the error of
    the transport, or what the response builder makes of the request id and
    the reply. *)
Definition outcome (req_id : Z) (calls : list rpc_call) (c : rpc_call)
  : result response :=
  reply ← rpc calls c; build_response req_id reply.

(** The public operations as one type of invocations, to speak of all of
    them at once. *)
Inductive public_call : Type :=
| CallGetOper (yang_path : string) (namespace : option string)
    (request_id : option Z) (path_is_payload : option bool)
| CallGet (yang_path : string) (namespace : option string)
    (request_id : option Z) (path_is_payload : option bool)
| CallGetConfig (yang_path : string) (namespace : option string)
    (request_id : option Z) (source : option string)
    (path_is_payload : option bool)
| CallEditConfig (yang_path : string)
    (operation default_operation : option string)
    (session_id request_id : option Z)
    (target error_operation : option string)
| CallStartSession (request_id : option Z)
| CallCloseSession (session_id : Z) (request_id : option Z)
| CallKillSession (session_id session_id_to_kill : Z) (request_id : option Z).

Definition run_call (pc : public_call) : op response :=
  match pc with
  | CallGetOper p ns rid pip => get_oper p ns rid pip
  | CallGet p ns rid pip => get p ns rid pip
  | CallGetConfig p ns rid src pip => get_config p ns rid src pip
  | CallEditConfig p o d sid rid t e => edit_config p o d sid rid t e
  | CallStartSession rid => start_session rid
  | CallCloseSession sid rid => close_session sid rid
  | CallKillSession sid k rid => kill_session sid k rid
  end.

(** The request id the caller passes, [0] when it passes none. *)
Definition request_id_of (pc : public_call) : Z :=
  default 0%Z
    match pc with
    | CallGetOper _ _ rid _ | CallGet _ _ rid _ | CallGetConfig _ _ rid _ _
    | CallEditConfig _ _ _ _ rid _ _ | CallStartSession rid
    | CallCloseSession _ rid | CallKillSession _ _ rid => rid
    end.

(** The stub method that belongs to a public operation. *)
Definition method_for (pc : public_call) : rpc_method :=
  match pc with
  | CallGetOper _ _ _ _ => GetOper
  | CallGet _ _ _ _ => Get
  | CallGetConfig _ _ _ _ _ => GetConfig
  | CallEditConfig _ _ _ _ _ _ _ => EditConfig
  | CallStartSession _ => StartSession
  | CallCloseSession _ _ => CloseSession
  | CallKillSession _ _ _ => KillSession
  end.

End operations.

(** Whether the namespace argument is there and not empty. *)
Definition has_namespace (namespace : option string) : bool :=
  match namespace with
  | None | Some "" => false
  | Some _ => true
  end.

(** The arguments of a public operation pass its checks: the enumerated ones
    lie in their sets, and a path that is to be compiled comes with a
    namespace. *)
Definition validates (pc : public_call) : Prop :=
  match pc with
  | CallGetOper _ ns _ pip | CallGet _ ns _ pip =>
      default false pip = true ∨ has_namespace ns = true
  | CallGetConfig _ ns _ src pip =>
      default "running" src = "running"
      ∧ (default false pip = true ∨ has_namespace ns = true)
  | CallEditConfig _ o d _ _ t e =>
      enums_valid (default "merge" o) (default "merge" d) (default "running" t)
        (default "roll-back" e)
  | CallStartSession _ | CallCloseSession _ _ | CallKillSession _ _ _ => True
  end.

(** The path of a read operation, when it is to be compiled, is within what
    [json.dumps] can encode. *)
Definition fits `{Platform} (pc : public_call) : Prop :=
  match pc with
  | CallGetOper p _ _ pip | CallGet p _ _ pip | CallGetConfig p _ _ _ pip =>
      default false pip = true ∨ encodable p = true
  | _ => True
  end.

(** The text of the error an enumerated argument outside its set raises. *)
Definition enum_message (name : string) (valid_options : gset string) : string :=
  name ++ " must be one of " ++ join ", " (elements valid_options).

(** The target a stub is connected to, and whether its channel is secure. *)
Definition stub_target (s : stub) : string :=
  match s with
  | gRPCConfigOperStub (insecure_channel target)
  | gRPCConfigOperStub (secure_channel target _ _) => target
  end.

Definition stub_secure (s : stub) : bool :=
  match s with
  | gRPCConfigOperStub (insecure_channel _) => false
  | gRPCConfigOperStub (secure_channel _ _ _) => true
  end.

(** *** [Client.__repr__]

    The dictionary it dumps holds strings, a boolean and an integer. *)

Inductive pyval : Type :=
| PStr (s : string)
| PBool (b : bool)
| PInt (z : Z).

(** [json.dumps] of a dictionary of such values *)
Definition dumps_val (v : pyval) : string :=
  match v with
  | PStr s => encode_basestring_ascii s
  | PBool true => "true"
  | PBool false => "false"
  | PInt z => str_of_Z z
  end.

Definition dumps_flat (items : list (string * pyval)) : string :=
  "{" ++ join ", "
           (map (fun kv => encode_basestring_ascii (fst kv) ++ ": " ++ dumps_val (snd kv))
              items)
      ++ "}".

(** [True if self.__credentials else False] *)
Definition is_secure (self : t) : bool :=
  match credentials self with
  | None | Some "" => false
  | Some _ => true
  end.

Definition repr_items (self : t) : list (string * pyval) :=
  [("target", PStr (target self));
   ("is_secure", PBool (is_secure self));
   ("username", PStr (username self));
   ("password", PStr (password self));
   ("timeout", PInt (timeout self))].

Definition repr (self : t) : string := dumps_flat (repr_items self).

End Client.

(** ** A platform and a transport to run the client against *)

Module Double.
Import Grpc.

(** No bracketed host is accepted, normalisation changes nothing, and the
    only file is [ca.pem]. *)
Definition platform : Platform := {|
  check_bracketed_host := fun _ => false;
  normalize_NFKC := fun s => s;
  read_file := fun path =>
    if String.eqb path "ca.pem" then Ok "PEM"
    else Raise (OSError ["No such file or directory"; path]);
  json_nesting := 990;
|}.

(** The same platform, except that the bracketed host [::1] is accepted. *)
Definition platform_ipv6 : Platform := {|
  check_bracketed_host := fun h => String.eqb h "::1";
  normalize_NFKC := fun s => s;
  read_file := fun path => Raise (OSError ["No such file or directory"; path]);
  json_nesting := 990;
|}.

(** A platform whose only file, [empty.pem], is empty. *)
Definition platform_empty_file : Platform := {|
  check_bracketed_host := fun _ => false;
  normalize_NFKC := fun s => s;
  read_file := fun path =>
    if String.eqb path "empty.pem" then Ok ""
    else Raise (OSError ["No such file or directory"; path]);
  json_nesting := 990;
|}.

(** A path of [n + 1] elements [a]: ["a/" * n + "a"]. *)
Fixpoint deep_path (n : nat) : string :=
  match n with
  | O => "a"
  | S n => "a/" ++ deep_path n
  end.

(** A device that answers every call with the number of calls made before. *)
Definition rpc (calls : list rpc_call) (c : rpc_call) : result nat :=
  Ok (length calls).

(** A response that keeps the request id and the raw reply. *)
Definition build_response (req_id : Z) (reply : nat) : result (Z * nat) :=
  Ok (req_id, reply).

Definition demo : Client.t := {|
  Client.username := "demo"; Client.password := "demo"; Client.timeout := 30;
  Client.target := "127.0.0.1:50051"; Client.credentials := None;
  Client.options := [];
  Client.client := gRPCConfigOperStub (insecure_channel "127.0.0.1:50051");
|}.

End Double.

Import PyStr Json PathCompiler.

Example split_abc : split "/" "a/b/c" = ["a"; "b"; "c"].
Proof. reflexivity. Qed.

Example split_empty : split "/" "" = [""].
Proof. reflexivity. Qed.

Example split_slashes : split "/" "/a/" = [""; "a"; ""].
Proof. reflexivity. Qed.

Example compile_abc :
  parse_xpath_to_json (H := Double.platform) "a/b/c" (Some "ns1")
  = Ok (qq "{'a': {'b': {'c': {}}}, 'namespace': 'ns1'}").
Proof. reflexivity. Qed.

Example rpartition_last : rpartition "@" "a@b@c" = ("a@b", "@", "c").
Proof. reflexivity. Qed.

Example partition_first : partition ":" "a:b:c" = ("a", ":", "b:c").
Proof. reflexivity. Qed.

Example dumps_escapes :
  text (JStr (String backslash (String dquote (String (ascii_of_N 233) "/"))))
  = qq "'\\\'\u00e9/'".
Proof. reflexivity. Qed.

(** * Properties of the path compiler *)

Lemma split_cons (sep : ascii) (s : string) :
  ∃ e es, split sep s = e :: es.
Proof.
  induction s as [|c s IH]; cbn [split]; [by eauto|].
  destruct (Ascii.eqb c sep); [by eauto|].
  destruct IH as (e & es & ->); eauto.
Qed.

(** The loop over the reversed elements builds the nested containers. *)
Lemma loop_body_nest (elements : list string) :
  elements ≠ [] →
  fold_left loop_body (rev elements) ([], true) = (nest elements, false).
Proof.
  induction elements as [|e es IH]; [done|]; intros _.
  cbn [rev]. rewrite fold_left_app. cbn [fold_left].
  destruct es as [|e' es']; [reflexivity|].
  rewrite IH by done. reflexivity.
Qed.

Lemma xpath_to_dict_eq (xpath namespace : string) :
  xpath_to_dict xpath namespace
  = setitem "namespace" (JStr namespace) (nest (split "/" xpath)).
Proof.
  unfold xpath_to_dict. rewrite loop_body_nest; [done|].
  destruct (split_cons "/" xpath) as (e & es & ->); done.
Qed.

Lemma nest_head (e : string) (es : list string) :
  ∃ inner, nest (e :: es) = [(e, JObj inner)].
Proof. destruct es; cbn; eauto. Qed.

(** *** The encoder and its frames *)

(** The encoder returns the text of a value when the frames cover its
    nesting, and raises [RecursionError] when they do not. *)
Lemma encode_rec_spec (frames : nat) (j : json) :
  encode_rec frames j
  = if (nesting j <=? frames)%nat then Ok (text j) else Raise RecursionError.
Proof.
  revert j. induction frames as [|frames IH]; intros [s|items]; try done.
  cbn [encode_rec nesting text].
  change (S (max_list_with (λ kv, nesting kv.2) items) <=? S frames)%nat
    with (max_list_with (λ kv, nesting kv.2) items <=? frames)%nat.
  assert (mapM (λ kv, v ← encode_rec frames kv.2;
                      Ok (encode_basestring_ascii kv.1 ++ ": " ++ v)) items
          = if (max_list_with (λ kv, nesting kv.2) items <=? frames)%nat
            then Ok (map (λ kv, encode_basestring_ascii kv.1 ++ ": " ++ text kv.2)
                       items)
            else Raise RecursionError) as ->.
  { induction items as [|[k v] items IHitems]; [done|].
    cbn [mapM max_list_with fst snd map]. rewrite IH, IHitems.
    destruct (Nat.leb_spec (nesting v) frames) as [Hv|Hv];
      destruct (Nat.leb_spec (max_list_with (λ kv, nesting kv.2) items) frames)
        as [Hl|Hl];
      destruct (Nat.leb_spec (nesting v `max` max_list_with (λ kv, nesting kv.2) items)
                  frames) as [Hm|Hm];
      try done; lia. }
  by destruct (_ <=? _)%nat.
Qed.

Lemma nest_cons (e : string) (es : list string) :
  nest (e :: es) = [(e, JObj (nest es))].
Proof. by destruct es. Qed.

Lemma nesting_nest (elements : list string) :
  nesting (JObj (nest elements)) = S (length elements).
Proof.
  induction elements as [|e es IH]; [done|].
  rewrite nest_cons. cbn [nesting max_list_with snd] in *. rewrite IH.
  cbn [length]. lia.
Qed.

(** The nesting of the dictionary the compiler dumps: one object when the
    first element is [namespace], else one more than the path has
    elements. *)
Lemma nesting_xpath_to_dict (xpath namespace : string) :
  nesting (JObj (xpath_to_dict xpath namespace))
  = if String.eqb (hd "" (split "/" xpath)) "namespace" then 1
    else S (length (split "/" xpath)).
Proof.
  rewrite xpath_to_dict_eq.
  destruct (split_cons "/" xpath) as (e & es & ->). cbn [hd].
  rewrite nest_cons. cbn [setitem].
  destruct (String.eqb e "namespace"); [done|].
  pose proof (nesting_nest es) as Hes.
  cbn [nesting max_list_with snd length] in *. rewrite Hes. lia.
Qed.

(** With a namespace, the compiler returns the text of its dictionary when
    the path is encodable and raises [RecursionError] when it is not. *)
Lemma parse_xpath_to_json_result `{Platform} (xpath namespace : string) :
  namespace ≠ "" →
  parse_xpath_to_json xpath (Some namespace)
  = if encodable xpath then Ok (text (JObj (xpath_to_dict xpath namespace)))
    else Raise RecursionError.
Proof.
  intros Hns. unfold parse_xpath_to_json, dumps, encodable.
  destruct namespace as [|c ns]; [done|].
  rewrite encode_rec_spec, nesting_xpath_to_dict.
  destruct (String.eqb (hd "" (split "/" xpath)) "namespace"); [done|].
  cbn [orb]. done.
Qed.

(** C1 (as amended): for a non-empty namespace and a path whose first
    element is not the literal [namespace] and that has no more elements
    than [json.dumps] can nest objects, the compiler returns the JSON text
    of the object that holds the nested containers of the path elements (the
    last element, empty or not, holding the empty object) followed by the
    [namespace] entry. *)
Theorem parse_xpath_to_json_nests `{Platform} (xpath namespace : string) :
  namespace ≠ "" →
  hd "" (split "/" xpath) ≠ "namespace" →
  (length (split "/" xpath) ≤ json_nesting)%nat →
  parse_xpath_to_json xpath (Some namespace)
  = Ok (text (JObj (nest (split "/" xpath) ++ [("namespace", JStr namespace)]))).
Proof.
  intros Hns Hhd Hdepth. rewrite parse_xpath_to_json_result by done.
  unfold encodable. apply Nat.leb_le in Hdepth. rewrite Hdepth, orb_true_r.
  rewrite xpath_to_dict_eq.
  destruct (split_cons "/" xpath) as (e & es & Hsplit).
  rewrite Hsplit in Hhd |- *. cbn [hd] in Hhd.
  rewrite nest_cons. cbn [setitem app].
  destruct (String.eqb_spec e "namespace") as [->|_]; done.
Qed.

Lemma parse_xpath_to_json_nests_abc :
  parse_xpath_to_json (H := Double.platform) "a/b/c" (Some "ns1")
  = Ok (qq "{'a': {'b': {'c': {}}}, 'namespace': 'ns1'}").
Proof.
  rewrite (parse_xpath_to_json_nests (H := Double.platform) "a/b/c" "ns1");
    [reflexivity|done| |].
  - vm_compute. discriminate.
  - apply Nat.leb_le. vm_compute. reflexivity.
Defined.

(** C1 (as stated) fails in two ways.  At the path [namespace] the container
    entry is replaced by the namespace entry, so the object has one key and
    the last element holds no empty object.  And a path of 992 elements,
    where 990 objects can be nested, is not compiled: [json.dumps] raises
    [RecursionError]. *)
Lemma parse_xpath_to_json_not_always_nested :
  parse_xpath_to_json (H := Double.platform) "namespace" (Some "ns1")
  = Ok (qq "{'namespace': 'ns1'}")
  ∧ parse_xpath_to_json (H := Double.platform) (Double.deep_path 991) (Some "ns1")
    = Raise RecursionError
  ∧ ¬ (∀ xpath namespace : string,
          namespace ≠ "" →
          parse_xpath_to_json (H := Double.platform) xpath (Some namespace)
          = Ok (text (JObj (nest (split "/" xpath)
                            ++ [("namespace", JStr namespace)])))).
Proof.
  split; [reflexivity|]. split; [vm_compute; reflexivity|].
  intros Hall. specialize (Hall "namespace" "ns1"). vm_compute in Hall.
  specialize (Hall ltac:(discriminate)). discriminate Hall.
Qed.



(** C10: when the first path element is the literal [namespace], the
    namespace entry takes the place of the outermost container: the compiled
    object maps [namespace] to the namespace string and holds nothing else. *)
Theorem parse_xpath_to_json_namespace_first `{Platform} (xpath namespace : string) :
  namespace ≠ "" →
  hd "" (split "/" xpath) = "namespace" →
  xpath_to_dict xpath namespace = [("namespace", JStr namespace)]
  ∧ parse_xpath_to_json xpath (Some namespace)
    = Ok ("{" ++ encode_basestring_ascii "namespace" ++ ": "
          ++ encode_basestring_ascii namespace ++ "}").
Proof.
  intros Hns Hhd.
  assert (xpath_to_dict xpath namespace = [("namespace", JStr namespace)]) as Hd.
  { rewrite xpath_to_dict_eq.
    destruct (split_cons "/" xpath) as (e & es & Hsplit).
    rewrite Hsplit in Hhd |- *. cbn [hd] in Hhd. subst e.
    destruct (nest_head "namespace" es) as [inner ->]. reflexivity. }
  split; [done|].
  unfold parse_xpath_to_json. destruct namespace as [|c ns]; [done|].
  rewrite Hd. unfold dumps. rewrite encode_rec_spec. reflexivity.
Qed.

Lemma parse_xpath_to_json_namespace_first_example :
  xpath_to_dict "namespace/b" "ns1" = [("namespace", JStr "ns1")]
  ∧ parse_xpath_to_json (H := Double.platform) "namespace/b" (Some "ns1")
    = Ok (qq "{'namespace': 'ns1'}").
Proof.
  destruct (parse_xpath_to_json_namespace_first (H := Double.platform)
              "namespace/b" "ns1") as [Hd Hp];
    [discriminate|reflexivity|].
  split; [exact Hd|]. rewrite Hp. reflexivity.
Defined.

(** * Properties of the argument validator *)

Import Client Grpc.

(** The text of the error [validate_enum_arg] raises: the caller's message
    when there is a non-empty one, else one that names the value and lists
    the allowed ones. *)
Lemma validate_enum_arg_cases (name : string) (valid_options : gset string)
    (message : option string) :
  (name ∈ valid_options ∧ validate_enum_arg name valid_options message = Ok ())
  ∨ ((name ∉ valid_options)
     ∧ (∃ text, validate_enum_arg name valid_options message = Raise (ValueError [text])
        ∧ ((message = Some text ∧ text ≠ "")
           ∨ ((message = None ∨ message = Some "")
              ∧ text = name ++ " must be one of " ++ join ", " (elements valid_options))))).
Proof.
  unfold validate_enum_arg. destruct (decide (name ∉ valid_options)) as [Hn|Hn].
  - right. split; [done|]. destruct message as [[|c m]|]; eauto 10.
  - left. split; [|done]. by apply dec_stable.
Qed.

(** C8: the validator does nothing exactly on the members of the allowed set
    and raises a validation error with a descriptive text on every other
    value; strings are compared as they are, so [Running] is not [running]. *)
Theorem validate_enum_arg_membership (name : string) (valid_options : gset string)
    (message : option string) :
  (validate_enum_arg name valid_options message = Ok () ↔ name ∈ valid_options)
  ∧ ((∃ text, validate_enum_arg name valid_options message = Raise (ValueError [text])
        ∧ ((message = Some text ∧ text ≠ "")
           ∨ ((message = None ∨ message = Some "")
              ∧ text = name ++ " must be one of " ++ join ", " (elements valid_options))))
     ↔ name ∉ valid_options)
  ∧ validate_enum_arg "Running" {["running"]} None
    = Raise (ValueError ["Running must be one of running"])
  ∧ validate_enum_arg "running" {["running"]} None = Ok ().
Proof.
  split; [|split; [|split]].
  - destruct (validate_enum_arg_cases name valid_options message)
      as [[Hin ->]|[Hn (text & -> & _)]]; split; try done.
  - destruct (validate_enum_arg_cases name valid_options message)
      as [[Hin Hv]|[Hn (text & Hv & Htext)]]; split; try done.
    + intros (text & Hr & _). congruence.
    + eauto.
  - destruct (validate_enum_arg_cases "Running" {["running"]} None)
      as [[Hin _]|[_ (text & -> & [[? _]|[_ ->]])]]; [|done|].
    + apply elem_of_singleton in Hin. discriminate.
    + by rewrite elements_singleton.
  - destruct (validate_enum_arg_cases "running" {["running"]} None)
      as [[_ ->]|[Hn _]]; [done|].
    exfalso. apply Hn. by apply elem_of_singleton.
Qed.

(** * Properties of client construction *)

Section construction_facts.
Context `{Platform}.

Lemma init_inv (target username password : string) (timeout : option Z)
    (credentials : option string) (credentials_from_file : bool)
    (tls_server_override : option string) (c : Client.t) :
  init target username password timeout credentials credentials_from_file
    tls_server_override = Ok c →
  ∃ target' credentials',
    gen_target target = Ok target'
    ∧ gen_credentials credentials credentials_from_file = Ok credentials'
    ∧ c = {| username := username; password := password;
             timeout := default C_MAX_LONG timeout;
             target := target'; credentials := credentials';
             options := gen_options tls_server_override;
             client := gen_client target' credentials'
                         (gen_options tls_server_override) |}.
Proof.
  unfold init. intros Hinit.
  destruct (gen_target target) as [target'|e]; [|done].
  destruct (gen_credentials credentials credentials_from_file) as [credentials'|e];
    [|done].
  cbn in Hinit. injection Hinit as <-. eauto.
Qed.

(** C5 (as amended): the stored timeout is the timeout argument itself, with
    no range check: it lies between 0 and 2147483647 whenever the argument
    does, and it is exactly 2147483647 when no argument is given. *)
Theorem init_timeout (target username password : string) (timeout : option Z)
    (credentials : option string) (credentials_from_file : bool)
    (tls_server_override : option string) (c : Client.t) :
  init target username password timeout credentials credentials_from_file
    tls_server_override = Ok c →
  match timeout with
  | None => Client.timeout c = 2147483647%Z
  | Some z =>
      Client.timeout c = z
      ∧ ((0 ≤ Client.timeout c ≤ 2147483647)%Z ↔ (0 ≤ z ≤ 2147483647)%Z)
  end.
Proof.
  intros (target' & credentials' & _ & _ & ->)%init_inv.
  destruct timeout as [z|]; cbn; [|done]. split; [done|]. done.
Qed.

(** C6: in a constructed client the resolved credentials decide the channel
    under the stub: none, or empty ones, give the insecure channel to the
    target; non-empty ones give the secure channel made of the TLS channel
    credentials of these bytes and of the options.  There is no other
    case. *)
Theorem init_selects_transport (target username password : string)
    (timeout : option Z) (credentials : option string)
    (credentials_from_file : bool) (tls_server_override : option string)
    (c : Client.t) :
  init target username password timeout credentials credentials_from_file
    tls_server_override = Ok c →
  gen_credentials credentials credentials_from_file = Ok (Client.credentials c)
  ∧ Client.client c
    = gen_client (Client.target c) (Client.credentials c) (Client.options c)
  ∧ match Client.credentials c with
    | None | Some "" =>
        Client.client c = gRPCConfigOperStub (insecure_channel (Client.target c))
    | Some bytes =>
        Client.client c
        = gRPCConfigOperStub
            (secure_channel (Client.target c) (ssl_channel_credentials bytes)
               (Client.options c))
    end.
Proof.
  intros (target' & credentials' & _ & Hcred & ->)%init_inv. cbn.
  split; [done|]. split; [done|].
  destruct credentials' as [[|b bytes]|]; reflexivity.
Qed.

End construction_facts.

Lemma init_timeout_default :
  let c := {| username := "demo"; password := "demo"; timeout := 2147483647;
              target := "127.0.0.1:50051"; credentials := None; options := [];
              client := gRPCConfigOperStub (insecure_channel "127.0.0.1:50051") |} in
  init (H := Double.platform) "127.0.0.1" "demo" "demo" None None false None = Ok c
  ∧ Client.timeout c = 2147483647%Z.
Proof.
  intros c.
  assert (init (H := Double.platform) "127.0.0.1" "demo" "demo" None None false None
          = Ok c) as Hc by (vm_compute; reflexivity).
  split; [exact Hc|].
  exact (init_timeout (H := Double.platform) _ _ _ None _ _ _ c Hc).
Defined.

(** C5 (as stated) fails: a negative timeout, or one above 2147483647, is
    stored as it is. *)
Lemma init_timeout_out_of_range :
  (∃ c, init (H := Double.platform) "127.0.0.1" "demo" "demo" (Some (-1)%Z)
          None false None = Ok c
        ∧ Client.timeout c = (-1)%Z
        ∧ ¬ (0 ≤ Client.timeout c ≤ 2147483647)%Z)
  ∧ (∃ c, init (H := Double.platform) "127.0.0.1" "demo" "demo" (Some 2147483648%Z)
            None false None = Ok c
          ∧ ¬ (0 ≤ Client.timeout c ≤ 2147483647)%Z).
Proof.
  split; eexists; (split; [vm_compute; reflexivity|]); cbn; [split; [done|]|]; lia.
Qed.

Lemma init_selects_transport_secure :
  let c := {| username := "demo"; password := "demo"; timeout := 30;
              target := "127.0.0.1:50051"; credentials := Some "PEM";
              options := [("grpc.ssl_target_name_override", "nx")];
              client := gRPCConfigOperStub
                          (secure_channel "127.0.0.1:50051"
                             (ssl_channel_credentials "PEM")
                             [("grpc.ssl_target_name_override", "nx")]) |} in
  init (H := Double.platform) "127.0.0.1" "demo" "demo" (Some 30%Z)
    (Some "ca.pem") true (Some "nx") = Ok c
  ∧ Client.client c
    = gRPCConfigOperStub
        (secure_channel "127.0.0.1:50051" (ssl_channel_credentials "PEM")
           [("grpc.ssl_target_name_override", "nx")]).
Proof.
  intros c.
  assert (init (H := Double.platform) "127.0.0.1" "demo" "demo" (Some 30%Z)
            (Some "ca.pem") true (Some "nx") = Ok c) as Hc
      by (vm_compute; reflexivity).
  split; [exact Hc|].
  exact (proj2 (proj2 (init_selects_transport (H := Double.platform)
                         _ _ _ _ _ _ _ c Hc))).
Defined.

(** * Properties of the operations *)

Section operation_facts.
Context `{Platform}.
Context {raw_reply response : Type}.
Variable rpc : list rpc_call → rpc_call → result raw_reply.
Variable build_response : Z → raw_reply → result response.
Variable self : Client.t.

Lemma bind_lift {A B : Type} (r : result A) (k : A → M (list rpc_call) B)
    (calls : list rpc_call) :
  (lift r ≫= k) calls
  = match r with
    | Ok a => k a calls
    | Raise e => (Raise e, calls)
    end.
Proof. unfold mbind, M_bind, lift. by destruct r. Qed.

(** The dispatcher makes one call, with the timeout and the metadata of the
    client, and hands the request id of the arguments and the reply to the
    response builder. *)
Lemma fulfill_request_run (method : rpc_method) (args : request_args)
    (calls : list rpc_call) :
  fulfill_request build_response self (method_of rpc (client self) method) args calls
  = (outcome rpc build_response (ReqID args) calls (dispatched self method args),
     (calls ++ [dispatched self method args])%list).
Proof.
  unfold fulfill_request, method_of, invoke, outcome, gen_metadata, dispatched.
  unfold mbind at 1, M_bind, lift. cbn.
  destruct (rpc calls _); reflexivity.
Qed.

Lemma bind_ret {A B : Type} (a : A) (k : A → M (list rpc_call) B)
    (calls : list rpc_call) :
  (mret a ≫= k) calls = k a calls.
Proof. reflexivity. Qed.

(** The three ways the path of a read operation can go: it is passed on
    (as it is when it is the payload, compiled otherwise), it lacks its
    namespace, or it is too deep to be encoded. *)
Lemma read_step {B : Type} (yang_path : string) (namespace : option string)
    (path_is_payload : bool) (k : string → M (list rpc_call) B)
    (calls : list rpc_call) :
  let m :=
    ((if negb path_is_payload
      then lift (parse_xpath_to_json yang_path namespace)
      else mret yang_path) ≫= k) calls in
  let named := path_is_payload = true ∨ has_namespace namespace = true in
  let shallow := path_is_payload = true ∨ encodable yang_path = true in
  (named ∧ shallow
   ∧ (∃ payload,
        (if path_is_payload then Ok yang_path
         else parse_xpath_to_json yang_path namespace) = Ok payload
        ∧ m = k payload calls))
  ∨ (¬ named ∧ (∃ message, m = (Raise (ValueError [message]), calls)))
  ∨ (named ∧ ¬ shallow ∧ m = (Raise RecursionError, calls)).
Proof.
  intros m named shallow. subst m named shallow.
  destruct path_is_payload; cbn [negb].
  { left. rewrite bind_ret. split_and!; [by left..|by eauto]. }
  rewrite bind_lift.
  destruct namespace as [[|c ns]|]; cbn [has_namespace].
  1,3: right; left; split; [by intros [?|?]|by eauto].
  rewrite parse_xpath_to_json_result by done.
  destruct (encodable yang_path).
  - left. split_and!; [by right..|by eauto].
  - right. right. split_and!; [by right|by intros [?|?]|done].
Qed.

Lemma validate_running (source : string) :
  validate_enum_arg source {["running"]} None
  = if String.eqb source "running" then Ok ()
    else Raise (ValueError [source ++ " must be one of running"]).
Proof.
  destruct (validate_enum_arg_cases source {["running"]} None)
    as [[Hin ->]|[Hn (text & -> & [[? _]|[_ ->]])]]; [|done|].
  - apply elem_of_singleton in Hin as ->. by rewrite String.eqb_refl.
  - destruct (String.eqb_spec source "running") as [->|_].
    + exfalso. apply Hn. by apply elem_of_singleton.
    + by rewrite elements_singleton.
Qed.

(** The two ways a run of [edit_config] can go. *)
Lemma edit_config_validates_first_aux (yang_path : string)
    (operation default_operation : option string)
    (session_id request_id : option Z)
    (target error_operation : option string) (calls : list rpc_call) :
  let op := default "merge" operation in
  let defop := default "merge" default_operation in
  let tgt := default "running" target in
  let errop := default "roll-back" error_operation in
  let run :=
    edit_config rpc build_response self yang_path operation default_operation
      session_id request_id target error_operation calls in
  let args :=
    EditConfigArgs yang_path op (default 0%Z session_id) (default 0%Z request_id)
      tgt defop errop in
  (snd run = calls ∧ (∃ message, fst run = Raise (ValueError [message]))
   ∧ ¬ enums_valid op defop tgt errop)
  ∨ (run = (outcome rpc build_response (default 0%Z request_id) calls
              (dispatched self EditConfig args),
            (calls ++ [dispatched self EditConfig args])%list)
     ∧ enums_valid op defop tgt errop).
Proof.
  intros op defop tgt errop run args. subst run args.
  unfold edit_config, enums_valid. fold op defop tgt errop.
  rewrite bind_lift.
  destruct (validate_enum_arg_cases op operation_options None)
    as [[H1 ->]|[H1 (m & -> & _)]]; [|left; cbn; by intuition eauto].
  rewrite bind_lift.
  destruct (validate_enum_arg_cases defop default_operation_options None)
    as [[H2 ->]|[H2 (m & -> & _)]]; [|left; cbn; by intuition eauto].
  rewrite bind_lift.
  destruct (validate_enum_arg_cases tgt target_options None)
    as [[H3 ->]|[H3 (m & -> & _)]]; [|left; cbn; by intuition eauto].
  rewrite bind_lift.
  destruct (validate_enum_arg_cases errop error_operation_options None)
    as [[H4 ->]|[H4 (m & -> & _)]]; [|left; cbn; by intuition eauto].
  rewrite fulfill_request_run. right. done.
Qed.

(** C7: when one of the four enumerated arguments of [edit_config] is
    outside its set, the call raises a validation error and the list of
    calls that reached the transport is as before; whenever [edit_config]
    does reach the transport, it is with one call whose enumerated values
    are all in their sets. *)
Theorem edit_config_validates_before_dispatch (yang_path : string)
    (operation default_operation : option string)
    (session_id request_id : option Z)
    (target error_operation : option string) (calls : list rpc_call) :
  let op := default "merge" operation in
  let defop := default "merge" default_operation in
  let tgt := default "running" target in
  let errop := default "roll-back" error_operation in
  let run :=
    edit_config rpc build_response self yang_path operation default_operation
      session_id request_id target error_operation calls in
  (¬ enums_valid op defop tgt errop →
   ∃ message, run = (Raise (ValueError [message]), calls))
  ∧ (snd run = calls
     ∨ (enums_valid op defop tgt errop
        ∧ snd run
          = (calls
             ++ [dispatched self EditConfig
                   (EditConfigArgs yang_path op (default 0%Z session_id)
                      (default 0%Z request_id) tgt defop errop)])%list)).
Proof.
  intros op defop tgt errop run. subst run. unfold edit_config, enums_valid.
  fold op defop tgt errop.
  rewrite bind_lift.
  destruct (validate_enum_arg_cases op operation_options None)
    as [[H1 ->]|[H1 (m & -> & _)]]; [|split; [by eauto|by left]].
  rewrite bind_lift.
  destruct (validate_enum_arg_cases defop default_operation_options None)
    as [[H2 ->]|[H2 (m & -> & _)]]; [|split; [by eauto|by left]].
  rewrite bind_lift.
  destruct (validate_enum_arg_cases tgt target_options None)
    as [[H3 ->]|[H3 (m & -> & _)]]; [|split; [by eauto|by left]].
  rewrite bind_lift.
  destruct (validate_enum_arg_cases errop error_operation_options None)
    as [[H4 ->]|[H4 (m & -> & _)]]; [|split; [by eauto|by left]].
  rewrite fulfill_request_run. split; [intros Hn; by destruct Hn|].
  right. done.
Qed.

Ltac dispatched_ok :=
  eexists; (split; [|split; [reflexivity|]]); [reflexivity|by eauto].

(** Every run of a public operation goes one of three ways: it dispatches
    one call, it fails a check, or its path is too deep to be encoded. *)
Lemma run_call_cases (pc : public_call) (calls : list rpc_call) :
  let run := run_call rpc build_response self pc calls in
  let req_id := request_id_of pc in
  (validates pc ∧ fits pc
   ∧ (∃ args,
        ReqID args = req_id
        ∧ run = (outcome rpc build_response req_id calls
                   (dispatched self (method_for pc) args),
                 (calls ++ [dispatched self (method_for pc) args])%list)
        ∧ match pc with
          | CallGetOper p ns _ pip =>
              ∃ payload,
                (if default false pip then Ok p else parse_xpath_to_json p ns)
                = Ok payload
                ∧ args = GetOperArgs req_id payload
          | CallGet p ns _ pip =>
              ∃ payload,
                (if default false pip then Ok p else parse_xpath_to_json p ns)
                = Ok payload
                ∧ args = GetArgs req_id payload
          | CallGetConfig p ns _ src pip =>
              ∃ payload,
                (if default false pip then Ok p else parse_xpath_to_json p ns)
                = Ok payload
                ∧ args = GetConfigArgs req_id (default "running" src) payload
          | CallEditConfig p o d sid _ t e =>
              args = EditConfigArgs p (default "merge" o) (default 0%Z sid) req_id
                       (default "running" t) (default "merge" d)
                       (default "roll-back" e)
          | CallStartSession _ => args = SessionArgs req_id
          | CallCloseSession sid _ => args = CloseSessionArgs req_id sid
          | CallKillSession sid k _ => args = KillArgs req_id sid k
          end))
  ∨ (¬ validates pc ∧ (∃ message, run = (Raise (ValueError [message]), calls)))
  ∨ (validates pc ∧ ¬ fits pc ∧ run = (Raise RecursionError, calls)).
Proof.
  intros run req_id. subst run req_id.
  destruct pc as [p ns rid pip|p ns rid pip|p ns rid src pip|p o d sid rid t e
                 |rid|sid rid|sid k rid];
    cbn [run_call request_id_of method_for validates fits].
  - unfold get_oper.
    destruct (read_step p ns (default false pip)
                (λ yang_path,
                   fulfill_request build_response self
                     (method_of rpc (client self) GetOper)
                     (GetOperArgs (default 0%Z rid) yang_path)) calls)
      as [(Hn & Hs & payload & Hp & ->)|[(Hn & m & ->)|(Hn & Hs & ->)]].
    + left. split_and!; [done..|]. rewrite fulfill_request_run. dispatched_ok.
    + right. left. by eauto.
    + right. right. done.
  - unfold get.
    destruct (read_step p ns (default false pip)
                (λ yang_path,
                   fulfill_request build_response self
                     (method_of rpc (client self) Get)
                     (GetArgs (default 0%Z rid) yang_path)) calls)
      as [(Hn & Hs & payload & Hp & ->)|[(Hn & m & ->)|(Hn & Hs & ->)]].
    + left. split_and!; [done..|]. rewrite fulfill_request_run. dispatched_ok.
    + right. left. by eauto.
    + right. right. done.
  - unfold get_config. rewrite bind_lift, validate_running.
    destruct (String.eqb_spec (default "running" src) "running") as [Hsrc|Hsrc].
    2:{ right. left. split; [by intros [? _]|by eauto]. }
    destruct (read_step p ns (default false pip)
                (λ yang_path,
                   fulfill_request build_response self
                     (method_of rpc (client self) GetConfig)
                     (GetConfigArgs (default 0%Z rid) (default "running" src)
                        yang_path)) calls)
      as [(Hn & Hs & payload & Hp & ->)|[(Hn & m & ->)|(Hn & Hs & ->)]].
    + left. split_and!; [done..|]. rewrite fulfill_request_run. dispatched_ok.
    + right. left. split; [by intros [_ ?]|by eauto].
    + right. right. done.
  - destruct (edit_config_validates_first_aux p o d sid rid t e calls)
      as [(Hcalls & [m Hm] & Hn)|[Hrun Hv]].
    + right. left. split; [done|]. exists m.
      destruct (edit_config _ _ _ _ _ _ _ _ _ _ _) as [r calls'].
      cbn in Hcalls, Hm. by subst.
    + left. split; [done|split; [done|]]. rewrite Hrun. dispatched_ok.
  - left. split; [done|split; [done|]]. unfold start_session.
    rewrite fulfill_request_run. dispatched_ok.
  - left. split; [done|split; [done|]]. unfold close_session.
    rewrite fulfill_request_run. dispatched_ok.
  - left. split; [done|split; [done|]]. unfold kill_session.
    rewrite fulfill_request_run. dispatched_ok.
Qed.

(** C9: a public operation whose arguments pass the checks, and whose path
    is not too deep to be encoded, makes exactly one call of its stub
    method, with the timeout of the client and the metadata pairs [username]
    and [password], on arguments that carry the caller's request id ([0] by
    default); the caller gets what the response builder makes of that
    request id and the reply.  For the three read operations the payload is
    the compiled path, unless the path is said to be the payload.  Any other
    operation raises before anything is dispatched. *)
Theorem run_call_dispatch (pc : public_call) (calls : list rpc_call) :
  let run := run_call rpc build_response self pc calls in
  let req_id := request_id_of pc in
  (validates pc ∧ fits pc →
   ∃ args,
     ReqID args = req_id
     ∧ run = (outcome rpc build_response req_id calls
                (dispatched self (method_for pc) args),
              (calls ++ [dispatched self (method_for pc) args])%list)
     ∧ match pc with
       | CallGetOper p ns _ pip =>
           ∃ payload,
             (if default false pip then Ok p else parse_xpath_to_json p ns)
             = Ok payload
             ∧ args = GetOperArgs req_id payload
       | CallGet p ns _ pip =>
           ∃ payload,
             (if default false pip then Ok p else parse_xpath_to_json p ns)
             = Ok payload
             ∧ args = GetArgs req_id payload
       | CallGetConfig p ns _ src pip =>
           ∃ payload,
             (if default false pip then Ok p else parse_xpath_to_json p ns)
             = Ok payload
             ∧ args = GetConfigArgs req_id (default "running" src) payload
       | CallEditConfig p o d sid _ t e =>
           args = EditConfigArgs p (default "merge" o) (default 0%Z sid) req_id
                    (default "running" t) (default "merge" d)
                    (default "roll-back" e)
       | CallStartSession _ => args = SessionArgs req_id
       | CallCloseSession sid _ => args = CloseSessionArgs req_id sid
       | CallKillSession sid k _ => args = KillArgs req_id sid k
       end)
  ∧ (¬ (validates pc ∧ fits pc) →
     snd run = calls
     ∧ ((∃ message, fst run = Raise (ValueError [message]))
        ∨ fst run = Raise RecursionError)).
Proof.
  intros run req_id. subst run req_id.
  destruct (run_call_cases pc calls)
    as [(Hv & Hf & Hargs)|[(Hv & m & Hrun)|(Hv & Hf & Hrun)]].
  - split; [done|]. intros Hn. by destruct Hn.
  - split; [by intros [? _]|]. intros _. rewrite Hrun. by eauto.
  - split; [by intros [_ ?]|]. intros _. rewrite Hrun. by eauto.
Qed.

End operation_facts.

(** * Facts about the string operations *)

Section string_facts.
Import PyStr.

Lemma append_cons (c : ascii) (s t : string) :
  String c s ++ t = String c (s ++ t).
Proof. reflexivity. Qed.

Lemma append_nil_l (t : string) : "" ++ t = t.
Proof. reflexivity. Qed.

Lemma append_nil_r (s : string) : s ++ "" = s.
Proof. induction s as [|c s IH]; [done|]. by rewrite append_cons, IH. Qed.

Lemma append_assoc (s t u : string) : (s ++ t) ++ u = s ++ t ++ u.
Proof. induction s as [|c s IH]; [done|]. by rewrite !append_cons, IH. Qed.

Lemma mem_app (c : ascii) (s t : string) :
  mem c (s ++ t) = mem c s || mem c t.
Proof.
  induction s as [|d s IH]; [done|].
  rewrite append_cons. cbn [mem]. by rewrite IH, orb_assoc.
Qed.

Lemma mem_take (c : ascii) (n : nat) (s : string) :
  mem c (take n s) = true → mem c s = true.
Proof.
  revert n. induction s as [|d s IH]; intros [|n]; cbn; try done.
  intros [->|Hm%IH]%orb_true_iff; [done|]. rewrite Hm. apply orb_true_r.
Qed.

Lemma mem_drop (c : ascii) (n : nat) (s : string) :
  mem c (drop n s) = true → mem c s = true.
Proof.
  revert n. induction s as [|d s IH]; intros [|n]; cbn; try done.
  intros Hm%IH. rewrite Hm. apply orb_true_r.
Qed.

Lemma mem_remove (c d : ascii) (s : string) :
  mem c (remove d s) = negb (Ascii.eqb d c) && mem c s.
Proof.
  induction s as [|x s IH]; cbn; [by rewrite andb_false_r|].
  destruct (Ascii.eqb_spec x d) as [->|Hxd]; cbn; rewrite IH.
  - destruct (Ascii.eqb d c); cbn; done.
  - destruct (Ascii.eqb_spec d c) as [->|Hdc]; cbn; [|done].
    destruct (Ascii.eqb_spec x c) as [->|_]; done.
Qed.

Lemma mem_lstrip (p : ascii → bool) (c : ascii) (s : string) :
  mem c (lstrip p s) = true → mem c s = true.
Proof.
  induction s as [|d s IH]; cbn; [done|].
  destruct (p d); [|done]. intros Hm%IH. rewrite Hm. apply orb_true_r.
Qed.

Lemma mem_lower (c : ascii) (s : string) :
  caseless c → mem c (lower s) = mem c s.
Proof.
  intros Hc. induction s as [|d s IH]; cbn; [done|]. by rewrite Hc, IH.
Qed.

Ltac bool_arith :=
  unfold is_ascii_upper, is_ascii_lower, is_ascii_digit, between in *;
  repeat match goal with
    | H : (_ || _) = true |- _ => apply orb_true_iff in H as [H|H]
    | H : (_ && _) = true |- _ => apply andb_true_iff in H as [H ?]
    | H : (_ || _) = false |- _ => apply orb_false_iff in H as [H ?]
    | H : (_ && _) = false |- _ => apply andb_false_iff in H as [H|H]
    | H : negb _ = true |- _ => apply negb_true_iff in H
    | H : negb _ = false |- _ => apply negb_false_iff in H
    end;
  rewrite ?N.leb_le, ?N.leb_gt, ?N.ltb_lt, ?N.ltb_ge, ?N.eqb_eq, ?N.eqb_neq in *.

(** Below U+00C0, what is no ASCII letter is caseless. *)
Lemma caseless_punctuation (c : ascii) :
  is_ascii_upper c = false → is_ascii_lower c = false →
  (N_of_ascii c <? 192)%N = true → caseless c.
Proof.
  intros Hu Hl Hh d. unfold lower_char.
  destruct (is_ascii_upper d || between 192 222 d && negb (N.eqb (N_of_ascii d) 215))
    eqn:Hd.
  - assert (Ascii.eqb d c = false) as ->.
    { apply Ascii.eqb_neq. intros ->. bool_arith; lia. }
    apply Ascii.eqb_neq. intros Heq.
    assert (N_of_ascii c = N_of_ascii d + 32)%N as Hn.
    { rewrite <- Heq. rewrite N_ascii_embedding; [done|].
      pose proof (N_ascii_bounded d). bool_arith; lia. }
    bool_arith; lia.
  - done.
Qed.

Lemma contains_mem (c : ascii) (p s : string) :
  contains (String c p) s = true → mem c s = true.
Proof.
  induction s as [|d s IH]; cbn; [done|].
  intros [[->%Ascii.eqb_eq _]%andb_true_iff|Hc%IH]%orb_true_iff.
  - by rewrite Ascii.eqb_refl.
  - rewrite Hc. apply orb_true_r.
Qed.

Lemma count_app (c : ascii) (s t : string) :
  count c (s ++ t) = count c s + count c t.
Proof.
  induction s as [|d s IH]; [done|].
  rewrite append_cons. cbn [count]. rewrite IH. lia.
Qed.

Lemma count_not_mem (c : ascii) (s : string) :
  mem c s = false → count c s = 0.
Proof.
  induction s as [|d s IH]; cbn; [done|].
  intros [-> Hm]%orb_false_iff. by rewrite IH.
Qed.

(** *** [partition] and [rpartition] *)

Lemma partition_not_mem (c : ascii) (s : string) :
  mem c s = false → partition c s = (s, "", "").
Proof.
  induction s as [|d s IH]; cbn; [done|].
  intros [-> Hm]%orb_false_iff. by rewrite IH.
Qed.

Lemma partition_app (c : ascii) (s t : string) :
  mem c s = false → partition c (s ++ String c t) = (s, chr c, t).
Proof.
  induction s as [|d s IH]; intros Hm.
  - rewrite append_nil_l. cbn. by rewrite Ascii.eqb_refl.
  - cbn in Hm. apply orb_false_iff in Hm as [Hd Hm].
    rewrite append_cons. cbn [partition]. by rewrite Hd, IH.
Qed.

(** The three parts of [partition] make up the string; the head has no
    separator, and the separator is missing only when the string has none. *)
Lemma partition_spec (c : ascii) (s : string) :
  ∀ h sep t, partition c s = (h, sep, t) →
    s = h ++ sep ++ t ∧ mem c h = false
    ∧ (sep = chr c ∨ (sep = "" ∧ t = "" ∧ mem c s = false)).
Proof.
  induction s as [|d s IH]; cbn; intros h sep t Hp.
  - injection Hp as <- <- <-. split_and!; [done..|by right].
  - destruct (Ascii.eqb_spec d c) as [->|Hdc].
    + injection Hp as <- <- <-. split_and!; [done..|by left].
    + destruct (partition c s) as [[h' sep'] t'] eqn:Hps.
      injection Hp as <- <- <-.
      destruct (IH _ _ _ eq_refl) as (-> & Hh & Hsep).
      split; [done|]. cbn. apply Ascii.eqb_neq in Hdc. rewrite Hdc. cbn.
      split; [done|]. destruct Hsep as [->|(-> & -> & Hm)]; [by left|right].
      rewrite append_nil_l, append_nil_r in Hm. by rewrite append_nil_l, append_nil_r.
Qed.

Lemma partition_mem_app (c : ascii) (s u : string) :
  mem c s = true →
  ∀ h sep t, partition c s = (h, sep, t) →
    partition c (s ++ u) = (h, chr c, t ++ u) ∧ sep = chr c.
Proof.
  induction s as [|d s IH]; cbn; [done|]. intros Hm h sep t Hp.
  rewrite append_cons. cbn [partition].
  destruct (Ascii.eqb_spec d c) as [->|Hdc].
  - by injection Hp as <- <- <-.
  - cbn in Hm. destruct (partition c s) as [[h' sep'] t'] eqn:Hps.
    injection Hp as <- <- <-.
    destruct (IH Hm _ _ _ eq_refl) as [-> ->]. done.
Qed.

Lemma rpartition_not_mem (c : ascii) (s : string) :
  mem c s = false → rpartition c s = ("", "", s).
Proof.
  induction s as [|d s IH]; cbn; [done|].
  intros [-> Hm]%orb_false_iff. by rewrite IH.
Qed.

(** The tail of [rpartition] has no separator and ends the string. *)
Lemma rpartition_spec (c : ascii) (s : string) :
  ∀ h sep t, rpartition c s = (h, sep, t) →
    s = h ++ sep ++ t ∧ mem c t = false
    ∧ (sep = chr c ∨ (sep = "" ∧ h = "")).
Proof.
  induction s as [|d s IH]; cbn; intros h sep t Hp.
  - injection Hp as <- <- <-. split_and!; [done..|by right].
  - destruct (rpartition c s) as [[h' sep'] t'] eqn:Hps.
    destruct (IH _ _ _ eq_refl) as (-> & Ht & Hsep).
    destruct Hsep as [->|[-> ->]]; cbn in Hp.
    + injection Hp as <- <- <-. split_and!; [done..|by left].
    + destruct (Ascii.eqb_spec d c) as [->|Hdc]; injection Hp as <- <- <-.
      * split_and!; [done..|by left].
      * split; [done|]. cbn. apply Ascii.eqb_neq in Hdc. rewrite Hdc.
        split; [done|by right].
Qed.

(** *** [find], [take] and [drop] *)

Lemma find_None (c : ascii) (s : string) :
  find c s = None → mem c s = false.
Proof.
  induction s as [|d s IH]; cbn; [done|].
  destruct (Ascii.eqb d c); [done|].
  destruct (find c s); [done|]. intros _. by apply IH.
Qed.

Lemma not_mem_find (c : ascii) (s : string) :
  mem c s = false → find c s = None.
Proof.
  induction s as [|d s IH]; cbn; [done|].
  intros [-> Hm]%orb_false_iff. by rewrite IH.
Qed.

Lemma mem_take_before (c : ascii) (n : nat) (s : string) :
  (∀ i, find c s = Some i → (n ≤ i)%nat) → mem c (take n s) = false.
Proof.
  revert n. induction s as [|d s IH]; intros [|n] Hn; cbn; try done.
  cbn in Hn. destruct (Ascii.eqb d c).
  - specialize (Hn 0 eq_refl). lia.
  - cbn. apply IH. intros i Hi. rewrite Hi in Hn.
    specialize (Hn (S i) eq_refl). lia.
Qed.

Lemma take_all (n : nat) (s : string) :
  (String.length s ≤ n)%nat → take n s = s.
Proof.
  revert n. induction s as [|d s IH]; intros [|n]; cbn; try done; [lia|].
  intros Hn. rewrite IH; [done|lia].
Qed.

Lemma drop_all (n : nat) (s : string) :
  (String.length s ≤ n)%nat → drop n s = "".
Proof.
  revert n. induction s as [|d s IH]; intros [|n]; cbn; try done; [lia|].
  intros Hn. apply IH. lia.
Qed.

(** *** [splitnetloc] *)

(** The authority holds none of the three delimiters. *)
Lemma splitnetloc_no_delimiter (url : string) (start : nat) (c : ascii) :
  c ∈ ["/"; "?"; "#"]%char →
  mem c (fst (Urllib.splitnetloc url start)) = false.
Proof.
  intros Hc. unfold Urllib.splitnetloc. cbn [fold_left fst].
  unfold find_from. destruct (decide (start ≤ String.length url)%nat) as [Hs|Hs].
  - apply mem_take_before. intros i Hi.
    repeat (apply elem_of_cons in Hc as [->|Hc]); [| | |by apply elem_of_nil in Hc].
    all: rewrite Hi; cbn [fmap option_fmap option_map].
    all: repeat match goal with
           | |- context [find ?c ?s] => destruct (find c s); cbn
           end; lia.
  - rewrite (drop_all start) by lia. by destruct (_ - _).
Qed.

(** An authority behind [//] with none of the delimiters is split off as it
    is, and nothing is left. *)
Lemma splitnetloc_authority (n : string) :
  mem "/" n = false → mem "?" n = false → mem "#" n = false →
  Urllib.splitnetloc ("//" ++ n) 2 = (n, "").
Proof.
  intros H1 H2 H3. unfold Urllib.splitnetloc. cbn [fold_left].
  unfold find_from.
  change (String.length ("//" ++ n)) with (S (S (String.length n))).
  destruct (decide (2 ≤ S (S (String.length n)))%nat) as [_|Hs]; [|lia].
  change (drop 2 ("//" ++ n)) with n.
  rewrite !not_mem_find by done. cbn [fmap option_fmap option_map].
  rewrite take_all by lia. rewrite drop_all; [done|].
  change (String.length ("//" ++ n)) with (S (S (String.length n))). lia.
Qed.

End string_facts.

(** * Facts about [urlsplit] *)

Section urllib_facts.
Context `{Platform}.
Import Urllib.

Lemma remove_not_mem (c : ascii) (s : string) :
  mem c s = false → remove c s = s.
Proof.
  induction s as [|d s IH]; cbn; [done|].
  intros [-> Hm]%orb_false_iff. by rewrite IH.
Qed.

Lemma split_scheme_suffix (url scheme rest : string) (c : ascii) :
  split_scheme url = (scheme, rest) → mem c rest = true → mem c url = true.
Proof.
  unfold split_scheme. destruct (find ":" url) as [i|]; [|by intros [= _ <-]].
  destruct (_ && _); intros [= _ <-]; [apply mem_drop|done].
Qed.

(** What [urlsplit] returns as authority holds no excluded character and
    has passed the checks. *)
Lemma urlsplit_netloc (url : string) (r : ParseResult) :
  urlsplit url = Ok r →
  plain (netloc r)
  ∧ check_brackets (netloc r) = Ok ()
  ∧ checknetloc (netloc r) = Ok ().
Proof.
  unfold urlsplit. cbn [fold_left UNSAFE_URL_BYTES_TO_REMOVE].
  set (url1 := lstrip _ url).
  set (url2 := remove _ (remove _ (remove _ url1))).
  destruct (split_scheme url2) as [sch url3] eqn:Hscheme.
  unfold split_authority.
  destruct (String.eqb (take 2 url3) "//").
  - destruct (splitnetloc url3 2) as [n url4] eqn:Hsplit.
    destruct (check_brackets n) as [[]|e] eqn:Hbr; [|done]. cbn.
    destruct (checknetloc n) as [[]|e] eqn:Hck; [|done]. cbn.
    intros [= <-]. cbn [netloc]. split; [|done].
    intros c Hc. unfold excluded in Hc. apply elem_of_app in Hc as [Hc|Hc].
    + change n with (fst (n, url4)). rewrite <- Hsplit.
      by apply splitnetloc_no_delimiter.
    + destruct (mem c n) eqn:Hm; [exfalso|done].
      assert (mem c url2 = true) as Hm2.
      { apply (split_scheme_suffix _ _ _ _ Hscheme).
        assert (n = fst (splitnetloc url3 2)) as -> by by rewrite Hsplit.
        unfold splitnetloc in Hm. cbn [fst] in Hm.
        by apply mem_take, mem_drop in Hm. }
      subst url2. rewrite !mem_remove in Hm2.
      unfold UNSAFE_URL_BYTES_TO_REMOVE in Hc.
      repeat (apply elem_of_cons in Hc as [->|Hc]); [| | |by apply elem_of_nil in Hc].
      all: cbn in Hm2; by rewrite ?andb_false_r in Hm2.
  - cbn. intros [= <-]. cbn [netloc]. split; [by intros c _|done].
Qed.

(** Parsing [//] followed by a plain authority gives that authority back,
    after the two checks. *)
Lemma urlsplit_authority (n : string) :
  plain n →
  urlsplit ("//" ++ n)
  = (_ ← check_brackets n; _ ← checknetloc n; Ok {| scheme := ""; netloc := n |}).
Proof.
  intros Hn. unfold urlsplit. cbn [fold_left UNSAFE_URL_BYTES_TO_REMOVE].
  change (lstrip WHATWG_C0_CONTROL_OR_SPACE ("//" ++ n)) with ("//" ++ n).
  assert (∀ c, c ∈ UNSAFE_URL_BYTES_TO_REMOVE → remove c ("//" ++ n) = "//" ++ n)
    as Hrm.
  { intros c Hc. change ("//" ++ n) with (String "/" (String "/" n)).
    assert (remove c n = n) as Hr.
    { apply remove_not_mem, Hn. unfold excluded. apply elem_of_app. by right. }
    unfold UNSAFE_URL_BYTES_TO_REMOVE in Hc.
    repeat (apply elem_of_cons in Hc as [->|Hc]);
      [..|by apply elem_of_nil in Hc]; cbn; cbn in Hr; by rewrite Hr. }
  rewrite !Hrm by (unfold UNSAFE_URL_BYTES_TO_REMOVE; set_solver).
  assert (split_scheme ("//" ++ n) = ("", "//" ++ n)) as ->.
  { unfold split_scheme. destruct (find ":" ("//" ++ n)); [|done].
    change (take 1 ("//" ++ n)) with "/". cbn. by rewrite andb_false_r. }
  unfold split_authority. change (take 2 ("//" ++ n)) with "//". cbn [String.eqb Ascii.eqb].
  rewrite splitnetloc_authority by (apply Hn; unfold excluded; set_solver).
  destruct (check_brackets n) as [[]|e]; reflexivity.
Qed.

Lemma port_netloc (r1 r2 : ParseResult) :
  netloc r1 = netloc r2 → port r1 = port r2.
Proof. unfold port, hostinfo. by intros ->. Qed.

End urllib_facts.

(** * Properties of the target resolver *)

Section gen_target_facts.
Context `{Platform}.
Import Urllib.

Lemma plain_not_prefixed (n : string) :
  plain n → prefixed "//" n = "//" ++ n.
Proof.
  intros Hn. unfold prefixed.
  destruct (contains "//" n) eqn:Hc; [|done].
  apply contains_mem in Hc. rewrite Hn in Hc; [done|].
  unfold excluded. set_solver.
Qed.

(** An authority that came out of a parse with a port is resolved to
    itself, in one frame. *)
Lemma gen_target_rec_netloc (depth : nat) (url : string) (r : ParseResult) (p : Z) :
  urlparse url = Ok r → truthy (netloc r) = true → port r = Ok (Some p) →
  gen_target_rec (S depth) (netloc r) "//" 50051 = Ok (netloc r).
Proof.
  intros (Hplain & Hbr & Hck)%urlsplit_netloc Hn Hp. cbn [gen_target_rec].
  rewrite plain_not_prefixed by done. unfold urlparse.
  rewrite urlsplit_authority by done. rewrite Hbr, Hck. cbn.
  rewrite Hn. cbn.
  rewrite (port_netloc _ r) by done. by rewrite Hp.
Qed.

(** Whatever the resolver returns, it resolves to itself. *)
Lemma gen_target_rec_fixed (depth : nat) (target netloc_prefix : string)
    (default_port : Z) (r : string) :
  gen_target_rec depth target netloc_prefix default_port = Ok r →
  ∀ depth', gen_target_rec (S depth') r "//" 50051 = Ok r.
Proof.
  revert target netloc_prefix default_port.
  induction depth as [|depth IH]; intros target netloc_prefix default_port; [done|].
  cbn [gen_target_rec].
  destruct (urlparse (prefixed netloc_prefix target)) as [parsed|e] eqn:Hparse; [|done].
  cbn. destruct (truthy (netloc parsed)) eqn:Hn; [|done]. cbn.
  destruct (port parsed) as [[p|]|e] eqn:Hp; [| |done]; cbn.
  - intros [= <-] depth'. by eapply gen_target_rec_netloc.
  - apply IH.
Qed.

(** *** The host name read from an authority *)

(** The host part of the authority is a piece of it, holds no [@], and
    holds no closing bracket when it holds an opening one. *)
Lemma hostinfo_host (r : ParseResult) :
  (∀ c, mem c (fst (hostinfo r)) = true → mem c (netloc r) = true)
  ∧ mem "@" (fst (hostinfo r)) = false
  ∧ (mem "[" (fst (hostinfo r)) = true → mem "]" (fst (hostinfo r)) = false).
Proof.
  unfold hostinfo.
  destruct (rpartition "@" (netloc r)) as [[a sep] hi] eqn:Hrp.
  apply rpartition_spec in Hrp as (Hnet & Hat & _).
  destruct (partition "[" hi) as [[b ob] br] eqn:Hob.
  apply partition_spec in Hob as (Hhi & Hb & Hopen).
  assert (∀ c, mem c hi = true → mem c (netloc r) = true) as Hsub.
  { intros c Hc. rewrite Hnet, !mem_app, Hc. by rewrite !orb_true_r. }
  destruct Hopen as [->|(-> & -> & Hno)]; cbn [truthy chr].
  - destruct (partition "]" br) as [[h0 s1] pt] eqn:Hcl.
    apply partition_spec in Hcl as (Hbr & Hh0 & _).
    destruct (partition ":" pt) as [[x1 x2] prt]. cbn [fst].
    assert (∀ c, mem c h0 = true → mem c hi = true) as Hsub0.
    { intros c Hc. rewrite Hhi, Hbr, !mem_app, Hc. by rewrite !orb_true_r. }
    split_and!; [by eauto| |done].
    destruct (mem "@" h0) eqn:Hm; [|done]. apply Hsub0 in Hm. congruence.
  - destruct (partition ":" hi) as [[h0 s1] prt] eqn:Hco.
    apply partition_spec in Hco as (Hhi' & _ & _). cbn [fst].
    assert (∀ c, mem c h0 = true → mem c hi = true) as Hsub0.
    { intros c Hc. rewrite Hhi', !mem_app, Hc. done. }
    split_and!; [by eauto| |].
    + destruct (mem "@" h0) eqn:Hm; [|done]. apply Hsub0 in Hm. congruence.
    + intros Hm%Hsub0. congruence.
Qed.

(** Lower-casing the host name brings in no caseless character. *)
Lemma hostname_mem (r : ParseResult) (c : ascii) :
  caseless c → mem c "None" = false →
  mem c (str_of_hostname (hostname r)) = true →
  mem c (fst (hostinfo r)) = true.
Proof.
  intros Hc Hnone. unfold hostname.
  destruct (truthy (fst (hostinfo r))); cbn [negb str_of_hostname from_option];
    [|intros; congruence].
  destruct (partition "%" (fst (hostinfo r))) as [[a pc] z] eqn:Hp.
  apply partition_spec in Hp as (-> & _ & _). cbn [from_option]. unfold id.
  by rewrite !mem_app, mem_lower.
Qed.

Lemma caseless_excluded (c : ascii) :
  c ∈ (excluded ++ ["@"; "["; "]"; ":"]%char)%list →
  caseless c ∧ mem c "None" = false.
Proof.
  unfold excluded, UNSAFE_URL_BYTES_TO_REMOVE. cbn [app]. intros Hc.
  repeat (apply elem_of_cons in Hc as [->|Hc]); [..|by apply elem_of_nil in Hc].
  all: split; [by apply caseless_punctuation|done].
Qed.

(** The host name the resolver puts before the default port. *)
Lemma hostname_facts (r : ParseResult) :
  plain (netloc r) →
  let h := str_of_hostname (hostname r) in
  plain h ∧ mem "@" h = false ∧ (mem "[" h = true → mem "]" h = false).
Proof.
  intros Hplain h. destruct (hostinfo_host r) as (Hsub & Hat & Hbr).
  assert (∀ c, c ∈ (excluded ++ ["@"; "["; "]"; ":"]%char)%list →
               mem c h = true → mem c (fst (hostinfo r)) = true) as Hh.
  { intros c [Hc Hn]%caseless_excluded. by apply hostname_mem. }
  split_and!.
  - intros c Hc. destruct (mem c h) eqn:Hm; [|done].
    apply Hh, Hsub in Hm; [|apply elem_of_app; by left].
    by rewrite Hplain in Hm.
  - destruct (mem "@" h) eqn:Hm; [|done].
    apply Hh in Hm; [congruence|]. apply elem_of_app. right. set_solver.
  - intros Hopen. destruct (mem "]" h) eqn:Hm; [|done].
    apply Hh in Hopen; [|apply elem_of_app; right; set_solver].
    apply Hh in Hm; [|apply elem_of_app; right; set_solver].
    apply Hbr in Hopen. congruence.
Qed.

(** *** The second pass, on [hostname:50051] *)

Lemma truthy_app_r (s t : string) : truthy t = true → truthy (s ++ t) = true.
Proof. by destruct s. Qed.

Lemma forallb_app (p : ascii → bool) (s t : string) :
  PyStr.forallb p (s ++ t) = PyStr.forallb p s && PyStr.forallb p t.
Proof.
  induction s as [|c s IH]; [done|].
  rewrite append_cons. cbn [PyStr.forallb]. by rewrite IH, andb_assoc.
Qed.

Lemma mem_ported (c : ascii) (h : string) :
  mem c ":50051" = false → mem c (h ++ ":50051") = mem c h.
Proof. intros Hc. by rewrite mem_app, Hc, orb_false_r. Qed.

(** Without [@], brackets or colon in the host name, the port read is the
    default one. *)
Lemma port_ported (sc h : string) :
  mem "@" h = false → mem "[" h = false → mem ":" h = false →
  port {| scheme := sc; netloc := h ++ ":50051" |} = Ok (Some 50051%Z).
Proof.
  intros Hat Hopen Hcolon. unfold port, hostinfo. cbn [netloc].
  rewrite rpartition_not_mem by by rewrite mem_ported.
  rewrite (partition_not_mem "[") by by rewrite mem_ported.
  cbn [truthy].
  change (h ++ ":50051") with (h ++ String ":" "50051").
  by rewrite partition_app.
Qed.

(** With a colon in the host name, the port text holds a colon and is
    refused. *)
Lemma port_ported_colon (sc h : string) :
  mem "@" h = false → mem "[" h = false → mem ":" h = true →
  ∃ args, port {| scheme := sc; netloc := h ++ ":50051" |} = Raise (ValueError args).
Proof.
  intros Hat Hopen Hcolon. unfold port, hostinfo. cbn [netloc].
  rewrite rpartition_not_mem by by rewrite mem_ported.
  rewrite (partition_not_mem "[") by by rewrite mem_ported.
  cbn [truthy].
  destruct (partition ":" h) as [[a sep] t] eqn:Hp.
  destruct (partition_mem_app ":" h ":50051" Hcolon _ _ _ Hp) as [-> _].
  cbn [snd]. rewrite truthy_app_r by done.
  unfold isdigit_ascii. rewrite forallb_app.
  change (PyStr.forallb is_ascii_digit ":50051") with false.
  rewrite !andb_false_r. eauto.
Qed.

(** The bracket check on [hostname:50051] leaves no bracket in the host
    name. *)
Lemma check_brackets_ported (h : string) :
  (mem "[" h = true → mem "]" h = false) →
  check_brackets (h ++ ":50051") = Ok () →
  mem "[" h = false ∧ mem "]" h = false.
Proof.
  intros Hbr. unfold check_brackets. rewrite !mem_ported by done.
  destruct (mem "[" h) eqn:Hopen.
  - rewrite Hbr by done. done.
  - destruct (mem "]" h); done.
Qed.

(** The second pass needs one frame, whatever the depth left: it raises a
    [ValueError] or returns [hostname:50051], having read the port 50051. *)
Lemma gen_target_rec_ported (h : string) :
  plain h → mem "@" h = false → (mem "[" h = true → mem "]" h = false) →
  ∃ res,
    (∀ depth, gen_target_rec (S depth) (h ++ ":50051") "//" 50051 = res)
    ∧ ((∃ args, res = Raise (ValueError args))
       ∨ (res = Ok (h ++ ":50051")
          ∧ mem ":" h = false
          ∧ target_port (h ++ ":50051") = Ok (Some 50051%Z))).
Proof.
  intros Hplain Hat Hbr.
  assert (plain (h ++ ":50051")) as Hp.
  { intros c Hc. rewrite mem_ported; [by apply Hplain|].
    unfold excluded, UNSAFE_URL_BYTES_TO_REMOVE in Hc. cbn [app] in Hc.
    repeat (apply elem_of_cons in Hc as [->|Hc]); [..|by apply elem_of_nil in Hc];
      done. }
  unfold target_port. cbn [gen_target_rec].
  rewrite plain_not_prefixed by done. unfold urlparse.
  rewrite urlsplit_authority by done.
  destruct (check_brackets (h ++ ":50051")) as [[]|e] eqn:Hck;
    cbn [mbind result_bind].
  2:{ exists (Raise e). split; [done|]. left.
      unfold check_brackets, check_bracketed_netloc, check_host in Hck.
      repeat match type of Hck with
             | (if ?b then _ else _) = _ => destruct b
             | (let '(_, _) := ?x in _) = _ => destruct x
             end; try done; injection Hck as <-; cbn; eauto. }
  destruct (check_brackets_ported h Hbr Hck) as [Hopen Hclose].
  destruct (checknetloc (h ++ ":50051")) as [[]|e] eqn:Hnfkc;
    cbn [mbind result_bind].
  2:{ exists (Raise e). split; [done|]. left. unfold checknetloc in Hnfkc.
      repeat match type of Hnfkc with
             | (if ?b then _ else _) = _ => destruct b
             end; try done; injection Hnfkc as <-; cbn; eauto. }
  cbn [netloc]. rewrite truthy_app_r by done. cbn [negb].
  destruct (mem ":" h) eqn:Hcolon.
  - destruct (port_ported_colon "" h Hat Hopen Hcolon) as [args ->].
    exists (Raise (ValueError args)). split; [done|]. left. eauto.
  - rewrite (port_ported "" h) by done.
    exists (Ok (h ++ ":50051")). split; [done|]. by right.
Qed.

(** What [urlparse] and the [port] property raise are [ValueError]s. *)
Lemma urlparse_raises (url : string) (e : exn) :
  urlparse url = Raise e → ∃ args, e = ValueError args.
Proof.
  unfold urlparse, urlsplit. destruct (split_scheme _) as [sch url3].
  unfold split_authority.
  destruct (String.eqb (take 2 url3) "//").
  - destruct (splitnetloc url3 2) as [n url4].
    destruct (check_brackets n) as [[]|e'] eqn:Hck.
    + cbn. unfold checknetloc.
      repeat match goal with
             | |- context [if ?b then _ else _] => destruct b
             end; cbn; intros [= <-]; eauto.
    + cbn. intros [= <-].
      unfold check_brackets, check_bracketed_netloc, check_host in Hck.
      repeat match type of Hck with
             | (if ?b then _ else _) = _ => destruct b
             | (let '(_, _) := ?x in _) = _ => destruct x
             end; try done; injection Hck as <-; eauto.
  - cbn. done.
Qed.

Lemma port_raises (r : ParseResult) (e : exn) :
  port r = Raise e → ∃ args, e = ValueError args.
Proof.
  unfold port. destruct (snd (hostinfo r)) as [p|]; [|done].
  destruct (isdigit_ascii p); [|intros [= <-]; eauto].
  destruct (negb _); [intros [= <-]; eauto|done].
Qed.

(** The first pass: the authority when it carries a port, else the second
    pass on the host name and the default port. *)
Lemma gen_target_rec_first (depth : nat) (target : string) :
  gen_target_rec (S depth) target "//" 50051
  = (parsed ← urlparse (prefixed "//" target);
     if truthy (netloc parsed) then
       p ← port parsed;
       match p with
       | Some _ => Ok (netloc parsed)
       | None =>
           gen_target_rec depth (str_of_hostname (hostname parsed) ++ ":50051")
             "//" 50051
       end
     else Raise (ValueError ["Unable to parse netloc from target URL %s!";
                             prefixed "//" target])).
Proof.
  cbn [gen_target_rec].
  destruct (urlparse (prefixed "//" target)) as [parsed|e]; [|done]. cbn.
  destruct (truthy (netloc parsed)); [|done]. cbn.
  destruct (port parsed) as [[p|]|e]; done.
Qed.

(** Two frames are enough for the resolver: a deeper stack changes
    nothing. *)
Lemma gen_target_rec_two (depth : nat) (target : string) :
  gen_target_rec (S (S depth)) target "//" 50051
  = gen_target_rec 2 target "//" 50051.
Proof.
  rewrite (gen_target_rec_first (S depth)), (gen_target_rec_first 1).
  destruct (urlparse (prefixed "//" target)) as [parsed|e] eqn:Hparse; [|done].
  cbn [mbind result_bind]. destruct (truthy (netloc parsed)); [|done].
  destruct (port parsed) as [[p|]|e]; [done| |done]. cbn [mbind result_bind].
  apply urlsplit_netloc in Hparse as (Hplain & _ & _).
  destruct (hostname_facts parsed Hplain) as (Hh & Hat & Hbr).
  destruct (gen_target_rec_ported _ Hh Hat Hbr) as (res & Hres & _).
  by rewrite !Hres.
Qed.

(** The resolver never runs out of frames: it returns or raises a
    [ValueError]. *)
Lemma gen_target_total (target : string) :
  (∃ r, gen_target target = Ok r)
  ∨ (∃ args, gen_target target = Raise (ValueError args)).
Proof.
  unfold gen_target. change recursion_limit with (S (S 998)).
  rewrite gen_target_rec_two, gen_target_rec_first.
  destruct (urlparse (prefixed "//" target)) as [parsed|e] eqn:Hparse.
  2:{ right. apply urlparse_raises in Hparse as [args ->]. cbn. eauto. }
  cbn [mbind result_bind]. destruct (truthy (netloc parsed)); [|right; by eauto].
  destruct (port parsed) as [[p|]|e] eqn:Hport; cbn [mbind result_bind].
  - left. eauto.
  - apply urlsplit_netloc in Hparse as (Hplain & _ & _).
    destruct (hostname_facts parsed Hplain) as (Hh & Hat & Hbr).
    destruct (gen_target_rec_ported _ Hh Hat Hbr) as (res & Hres & Hcases).
    rewrite Hres. destruct Hcases as [[args ->]|[-> _]]; eauto.
  - right. apply port_raises in Hport as [args ->]. eauto.
Qed.

(** *** Plain host names are accepted *)

Lemma forallb_mem (p : ascii → bool) (c : ascii) (s : string) :
  PyStr.forallb p s = true → p c = false → mem c s = false.
Proof.
  intros Hs Hc. induction s as [|d s IH]; [done|].
  cbn in Hs |- *. apply andb_true_iff in Hs as [Hd Hs].
  rewrite IH by done. destruct (Ascii.eqb_spec d c) as [->|_]; [congruence|done].
Qed.

Lemma forallb_impl (p q : ascii → bool) (s : string) :
  (∀ c, p c = true → q c = true) →
  PyStr.forallb p s = true → PyStr.forallb q s = true.
Proof.
  intros Hpq. induction s as [|d s IH]; [done|]. cbn.
  intros [Hd Hs]%andb_true_iff. by rewrite Hpq, IH.
Qed.

Lemma ldh_char_ascii (c : ascii) : ldh_char c = true → between 0 127 c = true.
Proof. destruct c as [[] [] [] [] [] [] [] []]; by vm_compute. Qed.

Lemma ldh_char_lower (c : ascii) : ldh_char c = true → ldh_char (lower_char c) = true.
Proof. destruct c as [[] [] [] [] [] [] [] []]; by vm_compute. Qed.

Lemma forallb_ldh_lower (s : string) :
  PyStr.forallb ldh_char s = true → PyStr.forallb ldh_char (lower s) = true.
Proof.
  induction s as [|d s IH]; [done|]. cbn.
  intros [Hd Hs]%andb_true_iff. by rewrite ldh_char_lower, IH.
Qed.

(** An authority of such characters, with or without [:50051] behind it,
    passes the checks of [urlsplit]. *)
Lemma urlsplit_ldh (h t : string) :
  PyStr.forallb ldh_char h = true → t = "" ∨ t = ":50051" →
  urlsplit ("//" ++ h ++ t) = Ok {| scheme := ""; netloc := h ++ t |}.
Proof.
  intros Hh Ht.
  assert (∀ c, ldh_char c = false → mem c t = false → mem c (h ++ t) = false)
    as Hmem.
  { intros c Hc Hct. by rewrite mem_app, (forallb_mem _ _ _ Hh Hc), Hct. }
  rewrite urlsplit_authority.
  2:{ intros c Hc. unfold excluded, UNSAFE_URL_BYTES_TO_REMOVE in Hc. cbn [app] in Hc.
      repeat (apply elem_of_cons in Hc as [->|Hc]); [..|by apply elem_of_nil in Hc].
      all: apply Hmem; [done|by destruct Ht as [->| ->]]. }
  unfold check_brackets.
  rewrite !Hmem by (done || by destruct Ht as [->| ->]). cbn.
  unfold checknetloc.
  assert (isascii (h ++ t) = true) as ->.
  { unfold isascii. rewrite forallb_app.
    rewrite (forallb_impl _ _ _ ldh_char_ascii Hh). by destruct Ht as [->| ->]. }
  by rewrite orb_true_r.
Qed.

(** X16: a host name of letters, digits, dots and hyphens is accepted: the
    resolver returns it in lower case with the default port. *)
Lemma gen_target_accepts_hostname (h : string) :
  truthy h = true → PyStr.forallb ldh_char h = true →
  gen_target h = Ok (lower h ++ ":50051").
Proof.
  intros Hne Hh. pose proof (λ c, forallb_mem _ c _ Hh) as Hmem.
  unfold gen_target. change recursion_limit with (S (S 998)).
  rewrite gen_target_rec_first.
  assert (prefixed "//" h = "//" ++ h) as ->.
  { unfold prefixed. destruct (contains "//" h) eqn:Hc; [|done].
    apply contains_mem in Hc. by rewrite Hmem in Hc. }
  unfold urlparse. rewrite <- (append_nil_r h) at 1.
  rewrite urlsplit_ldh by eauto. rewrite append_nil_r.
  cbn [mbind result_bind netloc]. rewrite Hne.
  assert (hostinfo {| scheme := ""; netloc := h |} = (h, None)) as Hinfo.
  { unfold hostinfo. cbn [netloc].
    rewrite rpartition_not_mem, (partition_not_mem "["), (partition_not_mem ":")
      by by apply Hmem. done. }
  assert (port {| scheme := ""; netloc := h |} = Ok None) as ->.
  { unfold port. by rewrite Hinfo. }
  assert (hostname {| scheme := ""; netloc := h |} = Some (lower h)) as ->.
  { unfold hostname. rewrite Hinfo. cbn [fst]. rewrite Hne. cbn [negb].
    rewrite (partition_not_mem "%") by by apply Hmem.
    by rewrite !append_nil_r. }
  cbn [mbind result_bind str_of_hostname from_option]. unfold id.
  apply forallb_ldh_lower in Hh. pose proof (λ c, forallb_mem _ c _ Hh) as Hmem'.
  cbn [gen_target_rec].
  assert (prefixed "//" (lower h ++ ":50051") = "//" ++ lower h ++ ":50051") as ->.
  { unfold prefixed. destruct (contains "//" (lower h ++ ":50051")) eqn:Hc; [|done].
    apply contains_mem in Hc. rewrite mem_ported in Hc by done.
    by rewrite Hmem' in Hc. }
  unfold urlparse. rewrite urlsplit_ldh by eauto.
  cbn [mbind result_bind netloc]. rewrite truthy_app_r by done. cbn [negb].
  rewrite port_ported by by apply Hmem'. done.
Qed.

(** C3: for a target that carries no port and that the resolver accepts, the
    result is the host name of the target followed by [:50051]; it holds one
    colon, with the default port behind it.  The resolver gets there by
    resolving [hostname:50051] once more, and that second pass reads the port
    50051 and returns without a further pass. *)
Theorem gen_target_default_port (target r : string) :
  target_port target = Ok None →
  gen_target target = Ok r →
  ∃ h,
    target_hostname target = Ok h
    ∧ r = str_of_hostname h ++ ":50051"
    ∧ count ":" r = 1
    ∧ rpartition ":" r = (str_of_hostname h, ":", "50051")
    ∧ target_port (str_of_hostname h ++ ":50051") = Ok (Some 50051%Z)
    ∧ gen_target_rec 1 (str_of_hostname h ++ ":50051") "//" 50051 = Ok r.
Proof.
  unfold target_port, target_hostname, gen_target.
  change recursion_limit with (S 999). rewrite gen_target_rec_first.
  destruct (urlparse (prefixed "//" target)) as [parsed|e] eqn:Hparse; [|done].
  cbn [mbind result_bind]. intros ->. destruct (truthy (netloc parsed)); [|done].
  cbn [mbind result_bind].
  apply urlsplit_netloc in Hparse as (Hplain & _ & _).
  destruct (hostname_facts parsed Hplain) as (Hh & Hat & Hbr).
  destruct (gen_target_rec_ported _ Hh Hat Hbr) as (res & Hres & Hcases).
  change 999 with (S 998). rewrite Hres.
  destruct Hcases as [[args ->]|(-> & Hcolon & Hport)]; [done|].
  intros [= <-]. eexists. split; [done|].
  set (h := str_of_hostname (hostname parsed)) in *.
  split_and!; try done.
  - rewrite count_app, count_not_mem by done. done.
  - change (h ++ ":50051") with (h ++ String ":" "50051").
    assert (rpartition ":" "50051" = ("", "", "50051")) as Htail by done.
    clear -Hcolon Htail. induction h as [|c h IH]; [done|].
    cbn in Hcolon. apply orb_false_iff in Hcolon as [Hc Hcolon].
    rewrite append_cons. cbn [rpartition]. rewrite IH by done.
    cbn [truthy chr]. done.
Qed.

(** C4: a target that carries a port and that the resolver accepts is
    resolved to its authority, and resolving that again gives the same
    string. *)
Theorem gen_target_idempotent (target r : string) (p : Z) :
  target_port target = Ok (Some p) →
  gen_target target = Ok r →
  gen_target r = Ok r
  ∧ (∃ parsed, urlparse (prefixed "//" target) = Ok parsed ∧ r = netloc parsed).
Proof.
  intros Hport Hr. split.
  - unfold gen_target in *. change recursion_limit with (S 999).
    by eapply gen_target_rec_fixed.
  - unfold target_port in Hport. unfold gen_target in Hr.
    change recursion_limit with (S 999) in Hr. cbn [gen_target_rec] in Hr.
    destruct (urlparse (prefixed "//" target)) as [parsed|e]; [|done].
    cbn in Hport, Hr. rewrite Hport in Hr.
    destruct (truthy (netloc parsed)); [|done]. cbn in Hr.
    injection Hr as <-. eauto.
Qed.

End gen_target_facts.

Lemma gen_target_idempotent_example :
  gen_target (H := Double.platform) "http://demo@Host.Example:8080/restconf"
  = Ok "demo@Host.Example:8080"
  ∧ gen_target (H := Double.platform) "demo@Host.Example:8080"
    = Ok "demo@Host.Example:8080".
Proof.
  assert (gen_target (H := Double.platform) "http://demo@Host.Example:8080/restconf"
          = Ok "demo@Host.Example:8080") as Hr by (vm_compute; reflexivity).
  split; [exact Hr|].
  refine (proj1 (gen_target_idempotent (H := Double.platform) _ _ 8080 _ Hr)).
  vm_compute. reflexivity.
Defined.

Lemma gen_target_default_port_example :
  gen_target (H := Double.platform) "Example.COM" = Ok "example.com:50051"
  ∧ count ":" "example.com:50051" = 1
  ∧ gen_target_rec (H := Double.platform) 1 "example.com:50051" "//" 50051
    = Ok "example.com:50051".
Proof.
  assert (gen_target (H := Double.platform) "Example.COM" = Ok "example.com:50051")
    as Hr by (vm_compute; reflexivity).
  assert (target_port (H := Double.platform) "Example.COM" = Ok None)
    as Hp by (vm_compute; reflexivity).
  destruct (gen_target_default_port (H := Double.platform) _ _ Hp Hr)
    as (h & Hh & _ & Hcount & _ & _ & Hsecond).
  assert (Ok h = Ok (Some "example.com")) as [= ->].
  { rewrite <- Hh. vm_compute. reflexivity. }
  split; [exact Hr|]. split; [exact Hcount|exact Hsecond].
Defined.

Lemma edit_config_rejects_operation :
  ∃ message,
    edit_config Double.rpc Double.build_response Double.demo "{}" (Some "Merge")
      None None None None None []
    = (Raise (ValueError [message]), []).
Proof.
  apply (proj1 (edit_config_validates_before_dispatch Double.rpc
                  Double.build_response Double.demo "{}" (Some "Merge")
                  None None None None None [])).
  intros [Hop _]. cbn in Hop. unfold operation_options in Hop.
  repeat (apply elem_of_union in Hop as [Hop|Hop]);
    apply elem_of_singleton in Hop; discriminate.
Defined.

Lemma run_call_dispatch_get_oper :
  ∃ args,
    ReqID args = 0%Z
    ∧ get_oper (H := Double.platform) Double.rpc Double.build_response Double.demo
        "Cisco-NX-OS-device:System" (Some "http://example/ns") None None []
      = (outcome Double.rpc Double.build_response 0%Z []
           (dispatched Double.demo GetOper args),
         [dispatched Double.demo GetOper args])
    ∧ ∃ payload,
        parse_xpath_to_json (H := Double.platform) "Cisco-NX-OS-device:System"
          (Some "http://example/ns")
        = Ok payload
        ∧ args = GetOperArgs 0%Z payload.
Proof.
  apply (proj1 (run_call_dispatch (H := Double.platform) Double.rpc
                  Double.build_response Double.demo
                  (CallGetOper "Cisco-NX-OS-device:System"
                     (Some "http://example/ns") None None) [])).
  split.
  - right. reflexivity.
  - right. vm_compute. reflexivity.
Defined.

(** The request of the class documentation, against the stub transport: the
    payload dispatched is the compiled path, and the response carries the
    default request id. *)
Example get_oper_dispatch :
  ∃ payload,
    parse_xpath_to_json (H := Double.platform) "Cisco-NX-OS-device:System"
      (Some "http://example/ns")
    = Ok payload
    ∧ get_oper (H := Double.platform) Double.rpc Double.build_response Double.demo
        "Cisco-NX-OS-device:System" (Some "http://example/ns") None None []
      = (Ok (0%Z, 0),
         [{| call_stub := gRPCConfigOperStub (insecure_channel "127.0.0.1:50051");
             call_method := GetOper;
             call_args := GetOperArgs 0 payload;
             call_timeout := 30;
             call_metadata := [("username", "demo"); ("password", "demo")] |}]).
Proof. eexists. split; reflexivity. Qed.

(** Two targets without a port on the edge of what the resolver is meant
    for: an authority with an empty host gives the host name [None], and an
    IPv6 literal is refused in the second pass, where its colons are read as
    the start of the port. *)
Example gen_target_empty_host :
  gen_target (H := Double.platform) ":" = Ok "None:50051".
Proof. vm_compute. reflexivity. Qed.

Example gen_target_ipv6_literal :
  gen_target (H := Double.platform_ipv6) "[::1]"
  = Raise (ValueError ["Port could not be cast to integer value as"; ":1:50051"]).
Proof. vm_compute. reflexivity. Qed.

(** * More on the target resolver *)

Section gen_target_results.
Context `{Platform}.
Import Urllib.

Lemma port_range (r : ParseResult) (p : Z) :
  port r = Ok (Some p) → (0 ≤ p ≤ 65535)%Z.
Proof.
  unfold port. destruct (snd (hostinfo r)) as [text|]; [|done].
  destruct (isdigit_ascii text); [|done].
  destruct (negb _) eqn:Hrange; [done|]. intros [= <-].
  apply negb_false_iff, andb_true_iff in Hrange as [?%Z.leb_le ?%Z.leb_le]. lia.
Qed.

(** What the resolver returns is the authority of a parse that went through
    and read a port. *)
Lemma gen_target_rec_inv (depth : nat) (target netloc_prefix : string)
    (default_port : Z) (r : string) :
  gen_target_rec depth target netloc_prefix default_port = Ok r →
  ∃ url parsed p,
    urlparse url = Ok parsed ∧ r = netloc parsed
    ∧ truthy r = true ∧ port parsed = Ok (Some p).
Proof.
  revert target netloc_prefix default_port.
  induction depth as [|depth IH]; intros target netloc_prefix default_port; [done|].
  cbn [gen_target_rec].
  destruct (urlparse (prefixed netloc_prefix target)) as [parsed|e] eqn:Hparse; [|done].
  cbn [mbind result_bind]. destruct (truthy (netloc parsed)) eqn:Hn; [|done].
  cbn [negb]. destruct (port parsed) as [[p|]|e] eqn:Hp; [| |done];
    cbn [mbind result_bind].
  - intros [= <-]. eauto 10.
  - apply IH.
Qed.

(** The authority of a parse, parsed again behind [//], reads the same
    port. *)
Lemma target_port_netloc (url : string) (parsed : ParseResult) :
  urlparse url = Ok parsed → target_port (netloc parsed) = port parsed.
Proof.
  intros (Hplain & Hbr & Hck)%urlsplit_netloc. unfold target_port.
  rewrite plain_not_prefixed by done. unfold urlparse.
  rewrite urlsplit_authority by done. rewrite Hbr, Hck.
  cbn [mbind result_bind]. by apply port_netloc.
Qed.

Lemma plain_delimiters (s : string) :
  plain s → mem "/" s = false ∧ mem "?" s = false ∧ mem "#" s = false.
Proof.
  intros Hs. split_and!; apply Hs; unfold excluded; apply elem_of_app; left.
  all: repeat constructor.
Qed.

(** What the resolver returns holds no excluded character, carries a port
    in range and is resolved to itself. *)
Lemma gen_target_ok_inv (target r : string) :
  gen_target target = Ok r →
  plain r ∧ gen_target r = Ok r
  ∧ (∃ p, target_port r = Ok (Some p) ∧ (0 ≤ p ≤ 65535)%Z).
Proof.
  unfold gen_target. intros Hr.
  destruct (gen_target_rec_inv _ _ _ _ _ Hr) as (url & parsed & p & Hparse & -> & _ & Hp).
  pose proof (urlsplit_netloc _ _ Hparse) as (Hplain & _ & _).
  split; [done|].
  split; [change recursion_limit with (S 999); by eapply gen_target_rec_fixed|].
  exists p. split; [|by eapply port_range].
  by rewrite (target_port_netloc _ _ Hparse).
Qed.

(** X1: whatever the resolver accepts, it resolves to a canonical target:
    one without [/], [?] and [#], that carries a port between 0 and 65535,
    and that the resolver maps to itself. *)
Theorem gen_target_canonical (target r : string) :
  gen_target target = Ok r →
  gen_target r = Ok r
  ∧ mem "/" r = false ∧ mem "?" r = false ∧ mem "#" r = false
  ∧ (∃ p, target_port r = Ok (Some p) ∧ (0 ≤ p ≤ 65535)%Z).
Proof.
  intros (Hplain & Hfix & Hport)%gen_target_ok_inv.
  destruct (plain_delimiters _ Hplain) as (? & ? & ?). by split_and!.
Qed.

(** X2: a target that is already canonical, that is without an excluded
    character and with a port, is returned as it is: its case and its user
    information are kept. *)
Theorem gen_target_keeps_canonical (target : string) (p : Z) :
  plain target → target_port target = Ok (Some p) →
  gen_target target = Ok target.
Proof.
  intros Hplain. unfold target_port, gen_target.
  change recursion_limit with (S 999). rewrite gen_target_rec_first.
  rewrite plain_not_prefixed by done. unfold urlparse.
  rewrite urlsplit_authority by done.
  destruct (check_brackets target) as [[]|e]; [|done].
  destruct (checknetloc target) as [[]|e]; [|done].
  cbn [mbind result_bind netloc]. intros Hp. rewrite Hp.
  destruct target as [|c target]; [done|]. done.
Qed.

(** X3: the frames of the resolver never run out: two frames give the
    result of any deeper stack, and that result is no [RecursionError]. *)
Theorem gen_target_two_frames (target : string) (depth : nat) :
  gen_target_rec (S (S depth)) target "//" 50051 = gen_target target
  ∧ gen_target target ≠ Raise RecursionError.
Proof.
  split.
  - unfold gen_target. change recursion_limit with (S (S 998)).
    by rewrite (gen_target_rec_two depth), (gen_target_rec_two 998).
  - destruct (gen_target_total target) as [[r ->]|[args ->]]; done.
Qed.

(** The first pass of a target without a port hands the host name and the
    default port to the second pass. *)
Lemma gen_target_no_port_inv (target r : string) :
  target_port target = Ok None → gen_target target = Ok r →
  ∃ parsed,
    urlparse (prefixed "//" target) = Ok parsed
    ∧ r = str_of_hostname (hostname parsed) ++ ":50051".
Proof.
  unfold target_port, gen_target.
  change recursion_limit with (S 999). rewrite gen_target_rec_first.
  destruct (urlparse (prefixed "//" target)) as [parsed|e] eqn:Hparse; [|done].
  cbn [mbind result_bind]. intros ->. destruct (truthy (netloc parsed)); [|done].
  cbn [mbind result_bind]. intros Hr. exists parsed. split; [done|].
  pose proof (urlsplit_netloc _ _ Hparse) as (Hplain & _ & _).
  destruct (hostname_facts parsed Hplain) as (Hh & Hat & Hbr).
  destruct (gen_target_rec_ported _ Hh Hat Hbr) as (res & Hres & Hcases).
  change 999 with (S 998) in Hr. rewrite Hres in Hr.
  destruct Hcases as [[args ->]|(-> & _)]; [done|]. by injection Hr as <-.
Qed.

(** X4: for a target without a port the result keeps the host name only:
    user information before [@] is dropped, and no bracket is left. *)
Theorem gen_target_no_port_host_only (target r : string) :
  target_port target = Ok None → gen_target target = Ok r →
  mem "@" r = false ∧ mem "[" r = false ∧ mem "]" r = false.
Proof.
  intros Hport Hr.
  destruct (gen_target_no_port_inv _ _ Hport Hr) as (parsed & Hparse & ->).
  pose proof (urlsplit_netloc _ _ Hparse) as (Hplain & _ & _).
  destruct (hostname_facts parsed Hplain) as (_ & Hat & Hbr).
  unfold gen_target in Hr.
  destruct (gen_target_rec_inv _ _ _ _ _ Hr) as (url & parsed' & p & Hparse' & Heq & _).
  pose proof (urlsplit_netloc _ _ Hparse') as (_ & Hck & _).
  rewrite <- Heq in Hck.
  destruct (check_brackets_ported _ Hbr Hck) as [Hopen Hclose].
  by rewrite !mem_ported.
Qed.

End gen_target_results.

Lemma gen_target_canonical_example :
  gen_target (H := Double.platform) "http://demo@Host.Example:8080/restconf"
  = Ok "demo@Host.Example:8080"
  ∧ target_port (H := Double.platform) "demo@Host.Example:8080" = Ok (Some 8080%Z).
Proof.
  assert (gen_target (H := Double.platform) "http://demo@Host.Example:8080/restconf"
          = Ok "demo@Host.Example:8080") as Hr by (vm_compute; reflexivity).
  split; [exact Hr|].
  destruct (gen_target_canonical (H := Double.platform) _ _ Hr)
    as (_ & _ & _ & _ & p & Hp & _).
  rewrite Hp. f_equal. f_equal.
  assert (Ok (Some p) = Ok (Some 8080%Z)) as [= ->]; [|done].
  rewrite <- Hp. vm_compute. reflexivity.
Defined.

Lemma gen_target_keeps_canonical_example :
  gen_target (H := Double.platform) "demo@Host.Example:8080"
  = Ok "demo@Host.Example:8080".
Proof.
  apply (gen_target_keeps_canonical (H := Double.platform) _ 8080).
  - intros c Hc. unfold Urllib.excluded, Urllib.UNSAFE_URL_BYTES_TO_REMOVE in Hc.
    cbn [app] in Hc.
    repeat (apply elem_of_cons in Hc as [->|Hc]); [..|by apply elem_of_nil in Hc];
      vm_compute; reflexivity.
  - vm_compute. reflexivity.
Defined.

Lemma gen_target_no_port_host_only_example :
  gen_target (H := Double.platform) "demo:secret@Host.Example"
  = Ok "host.example:50051"
  ∧ mem "@" "host.example:50051" = false.
Proof.
  assert (gen_target (H := Double.platform) "demo:secret@Host.Example"
          = Ok "host.example:50051") as Hr by (vm_compute; reflexivity).
  split; [exact Hr|].
  refine (proj1 (gen_target_no_port_host_only (H := Double.platform) _ _ _ Hr)).
  vm_compute. reflexivity.
Defined.

Lemma gen_target_accepts_hostname_example :
  gen_target (H := Double.platform) "Switch-01.Example.COM"
  = Ok "switch-01.example.com:50051".
Proof.
  rewrite (gen_target_accepts_hostname (H := Double.platform) "Switch-01.Example.COM");
    [reflexivity|reflexivity|vm_compute; reflexivity].
Defined.

(** * More on the operations *)

Section operation_checks.
Context `{Platform}.
Context {raw_reply response : Type}.
Variable rpc : list rpc_call → rpc_call → result raw_reply.
Variable build_response : Z → raw_reply → result response.
Variable self : Client.t.

(** X5: a public operation whose arguments pass the checks, and whose path
    is not too deep to be encoded, reaches the transport with one call of
    its method.  One whose arguments fail a check raises a validation error,
    and one whose arguments pass but whose path is too deep raises the
    recursion error of the encoder; in both cases the transport sees
    nothing.  The session operations have no check and always reach it; a
    path given as payload needs no namespace and is never too deep. *)
Theorem run_call_reaches_transport (pc : public_call) (calls : list rpc_call) :
  let run := run_call rpc build_response self pc calls in
  (validates pc → fits pc →
   ∃ args, snd run = (calls ++ [dispatched self (method_for pc) args])%list)
  ∧ (¬ validates pc → ∃ message, run = (Raise (ValueError [message]), calls))
  ∧ (validates pc → ¬ fits pc → run = (Raise RecursionError, calls)).
Proof.
  intros run. subst run.
  destruct (run_call_cases rpc build_response self pc calls)
    as [(Hv & Hf & args & _ & Hrun & _)|[(Hv & m & Hrun)|(Hv & Hf & Hrun)]].
  - split_and!; [|done..]. intros _ _. exists args. by rewrite Hrun.
  - split_and!; [done| |done]. intros _. by eauto.
  - by split_and!.
Qed.

(** X6: [edit_config] checks its enumerated arguments in the order
    operation, default operation, target, error operation, and the error
    carries the text for the first one outside its set: the text names the
    offending value and the allowed ones, not the parameter. *)
Theorem edit_config_first_invalid (yang_path : string)
    (operation default_operation : option string)
    (session_id request_id : option Z)
    (target error_operation : option string) (calls : list rpc_call) :
  let op := default "merge" operation in
  let defop := default "merge" default_operation in
  let tgt := default "running" target in
  let errop := default "roll-back" error_operation in
  let run :=
    edit_config rpc build_response self yang_path operation default_operation
      session_id request_id target error_operation calls in
  let raises name options :=
    run = (Raise (ValueError [enum_message name options]), calls) in
  (op ∉ operation_options → raises op operation_options)
  ∧ (op ∈ operation_options → defop ∉ default_operation_options →
     raises defop default_operation_options)
  ∧ (op ∈ operation_options → defop ∈ default_operation_options →
     tgt ∉ target_options → raises tgt target_options)
  ∧ (op ∈ operation_options → defop ∈ default_operation_options →
     tgt ∈ target_options → errop ∉ error_operation_options →
     raises errop error_operation_options).
Proof.
  intros op defop tgt errop run raises. subst run raises. cbn beta.
  unfold edit_config, enum_message. fold op defop tgt errop.
  rewrite bind_lift.
  destruct (validate_enum_arg_cases op operation_options None)
    as [[H1 ->]|[H1 (m & -> & [[? _]|[_ ->]])]]; [|done|by split_and!].
  rewrite bind_lift.
  destruct (validate_enum_arg_cases defop default_operation_options None)
    as [[H2 ->]|[H2 (m & -> & [[? _]|[_ ->]])]]; [|done|by split_and!].
  rewrite bind_lift.
  destruct (validate_enum_arg_cases tgt target_options None)
    as [[H3 ->]|[H3 (m & -> & [[? _]|[_ ->]])]]; [|done|by split_and!].
  rewrite bind_lift.
  destruct (validate_enum_arg_cases errop error_operation_options None)
    as [[H4 ->]|[H4 (m & -> & [[? _]|[_ ->]])]]; [|done|by split_and!].
  by split_and!.
Qed.

(** X7: [get_config] checks the source before anything else: with a source
    other than [running] it raises the error for the source, whatever the
    path and the namespace, also when the path is given as payload. *)
Theorem get_config_source_first (yang_path : string) (namespace : option string)
    (request_id : option Z) (source : string) (path_is_payload : option bool)
    (calls : list rpc_call) :
  source ≠ "running" →
  get_config rpc build_response self yang_path namespace request_id (Some source)
    path_is_payload calls
  = (Raise (ValueError [source ++ " must be one of running"]), calls).
Proof.
  intros Hsrc. unfold get_config. cbn [default from_option]. unfold id.
  rewrite bind_lift, validate_running.
  by destruct (String.eqb_spec source "running").
Qed.

End operation_checks.

Lemma run_call_reaches_transport_example :
  ∃ args,
    snd (get (H := Double.platform) Double.rpc Double.build_response Double.demo
           "{}" None None (Some true) [])
    = [dispatched Double.demo Get args].
Proof.
  apply (proj1 (run_call_reaches_transport (H := Double.platform) Double.rpc
                  Double.build_response Double.demo
                  (CallGet "{}" None None (Some true)) [])).
  - by left.
  - by left.
Defined.

(** A path of 992 elements, where the platform of the examples can nest 990
    objects: the call raises the recursion error and nothing is dispatched. *)
Example get_oper_deep_path :
  get_oper (H := Double.platform) Double.rpc Double.build_response Double.demo
    (Double.deep_path 991) (Some "ns1") None None []
  = (Raise RecursionError, []).
Proof. vm_compute. reflexivity. Qed.

Lemma edit_config_first_invalid_example :
  edit_config Double.rpc Double.build_response Double.demo "{}" (Some "merge")
    (Some "Replace") None None (Some "candidate") None []
  = (Raise (ValueError [enum_message "Replace" default_operation_options]), []).
Proof.
  apply (proj1 (proj2 (edit_config_first_invalid Double.rpc Double.build_response
                         Double.demo "{}" (Some "merge") (Some "Replace") None None
                         (Some "candidate") None []))).
  - cbn. unfold operation_options.
    do 4 (apply elem_of_union; left). by apply elem_of_singleton.
  - cbn. unfold default_operation_options. intros Hin.
    repeat (apply elem_of_union in Hin as [Hin|Hin]);
      apply elem_of_singleton in Hin; discriminate.
Defined.

Lemma get_config_source_first_example :
  get_config (H := Double.platform) Double.rpc Double.build_response Double.demo
    "{}" None None (Some "candidate") (Some true) []
  = (Raise (ValueError ["candidate must be one of running"]), []).
Proof.
  apply (get_config_source_first (H := Double.platform) Double.rpc
           Double.build_response Double.demo).
  discriminate.
Defined.

(** * More on client construction *)

Section construction_more.
Context `{Platform}.

(** X9: a credentials file that is empty gives an insecure channel: the
    client is constructed, and its stub is on the insecure channel to the
    target. *)
Theorem init_empty_credentials_file (target username password path t : string)
    (timeout : option Z) (tls_server_override : option string) :
  gen_target target = Ok t → path ≠ "" → read_file path = Ok "" →
  ∃ c, init target username password timeout (Some path) true tls_server_override
       = Ok c
       ∧ client c = gRPCConfigOperStub (insecure_channel t)
       ∧ is_secure c = false.
Proof.
  intros Ht Hne Hread. unfold init. rewrite Ht. cbn [mbind result_bind].
  unfold gen_credentials. destruct path as [|ch path]; [done|].
  rewrite Hread. cbn [mbind result_bind]. eexists. split; [done|]. done.
Qed.

(** X10: the target a constructed client keeps carries a port between 0 and
    65535, is one the resolver maps to itself, and is the target the channel
    of its stub is opened to. *)
Theorem init_target_ported (target username password : string) (timeout : option Z)
    (credentials : option string) (credentials_from_file : bool)
    (tls_server_override : option string) (c : Client.t) :
  init target username password timeout credentials credentials_from_file
    tls_server_override = Ok c →
  stub_target (client c) = Client.target c
  ∧ gen_target (Client.target c) = Ok (Client.target c)
  ∧ (∃ p, target_port (Client.target c) = Ok (Some p) ∧ (0 ≤ p ≤ 65535)%Z).
Proof.
  intros (t & creds & Ht & _ & ->)%init_inv. cbn.
  apply gen_target_ok_inv in Ht as (_ & Hfix & Hport).
  split; [|done]. by destruct creds as [[|b bytes]|].
Qed.

(** X11: what [__repr__] prints of a constructed client describes the
    channel of its stub: [target] is the target of the channel and
    [is_secure] tells whether the channel is a secure one. *)
Theorem repr_describes_channel (target username password : string)
    (timeout : option Z) (credentials : option string)
    (credentials_from_file : bool) (tls_server_override : option string)
    (c : Client.t) :
  init target username password timeout credentials credentials_from_file
    tls_server_override = Ok c →
  repr c
  = dumps_flat [("target", PStr (stub_target (client c)));
                ("is_secure", PBool (stub_secure (client c)));
                ("username", PStr username);
                ("password", PStr password);
                ("timeout", PInt (default 2147483647%Z timeout))].
Proof.
  intros (t & creds & _ & _ & ->)%init_inv.
  unfold repr, repr_items, is_secure. cbn.
  by destruct creds as [[|b bytes]|].
Qed.

End construction_more.

Lemma init_empty_credentials_file_example :
  ∃ c, init (H := Double.platform_empty_file) "switch" "demo" "demo" None
         (Some "empty.pem") true (Some "nx") = Ok c
       ∧ client c = gRPCConfigOperStub (insecure_channel "switch:50051")
       ∧ is_secure c = false.
Proof.
  apply (init_empty_credentials_file (H := Double.platform_empty_file)).
  - vm_compute. reflexivity.
  - discriminate.
  - reflexivity.
Defined.

Lemma init_target_ported_example :
  let c := {| username := "demo"; password := "demo"; timeout := 2147483647;
              target := "127.0.0.1:50051"; credentials := None; options := [];
              client := gRPCConfigOperStub (insecure_channel "127.0.0.1:50051") |} in
  init (H := Double.platform) "127.0.0.1" "demo" "demo" None None false None = Ok c
  ∧ gen_target (H := Double.platform) "127.0.0.1:50051" = Ok "127.0.0.1:50051".
Proof.
  intros c.
  assert (init (H := Double.platform) "127.0.0.1" "demo" "demo" None None false None
          = Ok c) as Hc by (vm_compute; reflexivity).
  split; [exact Hc|].
  exact (proj1 (proj2 (init_target_ported (H := Double.platform)
                         _ _ _ _ _ _ _ c Hc))).
Defined.

Lemma repr_describes_channel_example :
  let c := {| username := "demo"; password := "demo"; timeout := 30;
              target := "127.0.0.1:50051"; credentials := Some "PEM";
              options := [];
              client := gRPCConfigOperStub
                          (secure_channel "127.0.0.1:50051"
                             (ssl_channel_credentials "PEM") []) |} in
  init (H := Double.platform) "127.0.0.1" "demo" "demo" (Some 30%Z)
    (Some "ca.pem") true None = Ok c
  ∧ repr c
    = qq "{'target': '127.0.0.1:50051', 'is_secure': true, 'username': 'demo', 'password': 'demo', 'timeout': 30}".
Proof.
  intros c.
  assert (init (H := Double.platform) "127.0.0.1" "demo" "demo" (Some 30%Z)
            (Some "ca.pem") true None = Ok c) as Hc by (vm_compute; reflexivity).
  split; [exact Hc|].
  rewrite (repr_describes_channel (H := Double.platform) _ _ _ _ _ _ _ c Hc).
  vm_compute. reflexivity.
Defined.

(** * More on the path compiler *)

Section payload_facts.
Context `{Platform}.

Lemma escape_char_printable (c : ascii) :
  PyStr.forallb (between 32 126) (escape_char c) = true.
Proof. destruct c as [[] [] [] [] [] [] [] []]; by vm_compute. Qed.

Lemma escape_printable (s : string) :
  PyStr.forallb (between 32 126) (escape s) = true.
Proof.
  induction s as [|c s IH]; [done|]. cbn [escape].
  by rewrite forallb_app, escape_char_printable, IH.
Qed.

Lemma encode_printable (s : string) :
  PyStr.forallb (between 32 126) (encode_basestring_ascii s) = true.
Proof.
  unfold encode_basestring_ascii. by rewrite !forallb_app, escape_printable.
Qed.

Lemma join_printable (sep : string) (l : list string) :
  PyStr.forallb (between 32 126) sep = true →
  Forall (λ x, PyStr.forallb (between 32 126) x = true) l →
  PyStr.forallb (between 32 126) (join sep l) = true.
Proof.
  intros Hsep. induction 1 as [|x l Hx Hl IH]; [done|].
  destruct l as [|y l]; [done|].
  change (join sep (x :: y :: l)) with (x ++ sep ++ join sep (y :: l)).
  by rewrite !forallb_app, Hx, Hsep, IH.
Qed.

(** What [json.dumps] writes is printable ASCII. *)
Lemma text_printable (j : json) :
  PyStr.forallb (between 32 126) (text j) = true.
Proof.
  revert j. fix IH 1. intros [s|items].
  - apply encode_printable.
  - cbn [text]. rewrite !forallb_app. rewrite join_printable; [done..|].
    induction items as [|[k v] items IHitems]; constructor; [|done].
    cbn [fst snd]. by rewrite !forallb_app, encode_printable, IH.
Qed.

(** X12: the payload the compiler returns is printable ASCII, whatever
    characters the path and the namespace hold: what lies outside is
    written as an escape. *)
Theorem parse_xpath_to_json_printable (xpath : string) (namespace : option string)
    (payload : string) :
  parse_xpath_to_json xpath namespace = Ok payload →
  PyStr.forallb (between 32 126) payload = true.
Proof.
  destruct namespace as [[|c ns]|]; [done| |done].
  rewrite parse_xpath_to_json_result by done.
  destruct (encodable xpath); [|done]. intros [= <-].
  exact (text_printable (JObj (xpath_to_dict xpath (String c ns)))).
Qed.

(** X13: a path with a leading slash has the empty name as its first
    element.  When, counting that element, it has no more elements than
    [json.dumps] can nest objects, it compiles to a container with the empty
    name around the containers of the rest of the path; when it has more,
    the compiler raises [RecursionError]. *)
Theorem parse_xpath_to_json_leading_slash (rest namespace : string) :
  namespace ≠ "" →
  split "/" ("/" ++ rest) = "" :: split "/" rest
  ∧ ((S (length (split "/" rest)) ≤ json_nesting)%nat →
     parse_xpath_to_json ("/" ++ rest) (Some namespace)
     = Ok (text (JObj [("", JObj (nest (split "/" rest)));
                       ("namespace", JStr namespace)])))
  ∧ ((json_nesting < S (length (split "/" rest)))%nat →
     parse_xpath_to_json ("/" ++ rest) (Some namespace) = Raise RecursionError).
Proof.
  intros Hns. split; [reflexivity|].
  rewrite parse_xpath_to_json_result by done. unfold encodable.
  change (split "/" ("/" ++ rest)) with ("" :: split "/" rest).
  cbn [hd length]. change (String.eqb "" "namespace") with false. cbn [orb].
  split; intros Hdepth.
  - apply Nat.leb_le in Hdepth. rewrite Hdepth.
    rewrite xpath_to_dict_eq.
    change (split "/" ("/" ++ rest)) with ("" :: split "/" rest).
    rewrite nest_cons. reflexivity.
  - apply Nat.leb_gt in Hdepth. by rewrite Hdepth.
Qed.

End payload_facts.

Lemma parse_xpath_to_json_printable_example :
  parse_xpath_to_json (H := Double.platform) (String (ascii_of_N 233) "/b")
    (Some "ns")
  = Ok (qq "{'\u00e9': {'b': {}}, 'namespace': 'ns'}")
  ∧ PyStr.forallb (between 32 126)
      (qq "{'\u00e9': {'b': {}}, 'namespace': 'ns'}") = true.
Proof.
  assert (parse_xpath_to_json (H := Double.platform)
            (String (ascii_of_N 233) "/b") (Some "ns")
          = Ok (qq "{'\u00e9': {'b': {}}, 'namespace': 'ns'}")) as Hp
      by (vm_compute; reflexivity).
  split; [exact Hp|].
  exact (parse_xpath_to_json_printable (H := Double.platform) _ _ _ Hp).
Defined.

Lemma parse_xpath_to_json_leading_slash_example :
  parse_xpath_to_json (H := Double.platform) "/System/intf" (Some "ns")
  = Ok (qq "{'': {'System': {'intf': {}}}, 'namespace': 'ns'}").
Proof.
  change "/System/intf" with ("/" ++ "System/intf").
  rewrite (proj1 (proj2 (parse_xpath_to_json_leading_slash (H := Double.platform)
                           "System/intf" "ns" ltac:(discriminate))));
    [reflexivity|].
  apply Nat.leb_le. vm_compute. reflexivity.
Defined.

(** * The target resolver on schemes and on missing authorities *)

Section gen_target_shapes.
Context `{Platform}.
Import Urllib.

Lemma split_scheme_slashes (s : string) :
  split_scheme ("//" ++ s) = ("", "//" ++ s).
Proof.
  unfold split_scheme. destruct (find ":" ("//" ++ s)); [|done].
  change (take 1 ("//" ++ s)) with "/". cbn. by rewrite andb_false_r.
Qed.

Lemma remove_app (c : ascii) (s t : string) :
  remove c (s ++ t) = remove c s ++ remove c t.
Proof.
  induction s as [|d s IH]; [done|]. rewrite append_cons. cbn [remove].
  destruct (Ascii.eqb d c); by rewrite IH.
Qed.

(** The URL [//s] is parsed from [s] without its tabs and line ends. *)
Lemma urlsplit_slashes (s : string) :
  urlsplit ("//" ++ s)
  = ('(n, _) ← split_authority
                 ("//" ++ remove (ascii_of_N 10)
                            (remove (ascii_of_N 13) (remove (ascii_of_N 9) s)));
     _ ← checknetloc n;
     Ok {| scheme := ""; netloc := n |}).
Proof.
  unfold urlsplit. cbn [fold_left UNSAFE_URL_BYTES_TO_REMOVE].
  change (lstrip WHATWG_C0_CONTROL_OR_SPACE ("//" ++ s)) with ("//" ++ s).
  rewrite !(remove_app _ "//"). change (remove _ "//") with "//".
  by rewrite split_scheme_slashes.
Qed.

(** The authority ends at the first delimiter found. *)
Lemma splitnetloc_delim_le (url : string) (start w : nat) (c : ascii) :
  c ∈ ["/"; "?"; "#"]%char → find_from c start url = Some w →
  ∃ n, fst (splitnetloc url start) = take n (drop start url) ∧ (n ≤ w - start)%nat.
Proof.
  intros Hc Hw. unfold splitnetloc. cbn [fold_left fst].
  eexists. split; [reflexivity|].
  repeat (apply elem_of_cons in Hc as [->|Hc]); [| | |by apply elem_of_nil in Hc].
  all: rewrite Hw.
  all: repeat match goal with
         | |- context [find_from ?c ?n ?s] => destruct (find_from c n s)
         end; lia.
Qed.

(** No authority is found in [//s] when [s] is empty or starts with a
    delimiter. *)
Lemma split_authority_none (s : string) :
  s = "" ∨ (∃ d rest, s = String d rest ∧ mem d "/?#" = true) →
  ∃ url, split_authority ("//" ++ s) = Ok ("", url).
Proof.
  intros Hs. unfold split_authority.
  change (take 2 ("//" ++ s)) with "//". cbn [String.eqb Ascii.eqb].
  destruct (splitnetloc ("//" ++ s) 2) as [n url] eqn:Hsplit.
  assert (n = "") as ->; [|by eauto].
  change n with (fst (n, url)). rewrite <- Hsplit.
  destruct Hs as [->|(d & rest & -> & Hd)]; [done|].
  assert (d ∈ ["/"; "?"; "#"]%char) as Hin.
  { cbn [mem] in Hd. repeat (apply orb_true_iff in Hd as [Hd|Hd]); [| | |done].
    all: apply Ascii.eqb_eq in Hd; subst d; repeat constructor. }
  destruct (splitnetloc_delim_le ("//" ++ String d rest) 2 2 d Hin) as (k & -> & Hk).
  - unfold find_from.
    change (String.length ("//" ++ String d rest)) with (S (S (S (String.length rest)))).
    destruct (decide _) as [_|Hn]; [|lia].
    change (drop 2 ("//" ++ String d rest)) with (String d rest).
    cbn [find]. by rewrite Ascii.eqb_refl.
  - by replace k with 0 by lia.
Qed.

(** X14: a target that is empty, or that starts with [/], [?] or [#] and
    holds no [//], has no authority: the resolver raises the error that
    names the target as it was parsed. *)
Theorem gen_target_no_authority (target : string) :
  contains "//" target = false →
  target = "" ∨ (∃ d rest, target = String d rest ∧ mem d "/?#" = true) →
  gen_target target
  = Raise (ValueError ["Unable to parse netloc from target URL %s!";
                       "//" ++ target]).
Proof.
  intros Hc Hs. unfold gen_target. change recursion_limit with (S 999).
  rewrite gen_target_rec_first.
  assert (prefixed "//" target = "//" ++ target) as -> by (unfold prefixed; by rewrite Hc).
  unfold urlparse. rewrite urlsplit_slashes.
  destruct (split_authority_none
              (remove (ascii_of_N 10) (remove (ascii_of_N 13)
                 (remove (ascii_of_N 9) target)))) as [url ->]; [|done].
  destruct Hs as [->|(d & rest & -> & Hd)]; [by left|right].
  cbn [mem] in Hd. repeat (apply orb_true_iff in Hd as [Hd|Hd]); [| | |done].
  all: apply Ascii.eqb_eq in Hd; subst d; cbn; eauto.
Qed.

(** *** A scheme before the authority *)

Lemma find_app (c : ascii) (s t : string) :
  mem c s = false → find c (s ++ String c t) = Some (String.length s).
Proof.
  induction s as [|d s IH]; intros Hm.
  - rewrite append_nil_l. cbn. by rewrite Ascii.eqb_refl.
  - cbn in Hm. apply orb_false_iff in Hm as [Hd Hm].
    rewrite append_cons. cbn [find]. by rewrite Hd, IH.
Qed.

Lemma take_app_length (s t : string) : take (String.length s) (s ++ t) = s.
Proof.
  induction s as [|d s IH]; [by destruct t|].
  rewrite append_cons. cbn. by rewrite IH.
Qed.

Lemma drop_app_length (s t : string) : drop (String.length s) (s ++ t) = t.
Proof. induction s as [|d s IH]; [by destruct t|]. by rewrite append_cons. Qed.

Lemma contains_app_r (p s t : string) :
  contains p t = true → contains p (s ++ t) = true.
Proof.
  intros Ht. induction s as [|d s IH]; [done|].
  rewrite append_cons. cbn [contains]. rewrite IH. apply orb_true_r.
Qed.

Lemma scheme_chars_safe (c : ascii) :
  scheme_chars c = true →
  WHATWG_C0_CONTROL_OR_SPACE c = false ∧ c ≠ ":"%char
  ∧ c ≠ ascii_of_N 9 ∧ c ≠ ascii_of_N 13 ∧ c ≠ ascii_of_N 10.
Proof. destruct c as [[] [] [] [] [] [] [] []]; by vm_compute. Qed.

Lemma scheme_not_mem (sch : string) (c : ascii) :
  PyStr.forallb scheme_chars sch = true → scheme_chars c = false →
  mem c sch = false.
Proof. intros Hs Hc. by eapply forallb_mem. Qed.

(** With a scheme before [//], the URL is parsed as without it, except that
    the scheme is kept in lower case. *)
Lemma urlsplit_scheme (a : ascii) (sch rest : string) :
  is_ascii_alpha a = true → PyStr.forallb scheme_chars (String a sch) = true →
  urlsplit (String a sch ++ "://" ++ rest)
  = (x ← urlsplit ("//" ++ rest);
     Ok {| scheme := lower (String a sch); netloc := netloc x |}).
Proof.
  intros Ha Hsch. rewrite urlsplit_slashes. unfold urlsplit.
  cbn [fold_left UNSAFE_URL_BYTES_TO_REMOVE].
  assert (WHATWG_C0_CONTROL_OR_SPACE a = false) as Hws.
  { apply scheme_chars_safe. cbn in Hsch. by apply andb_true_iff in Hsch as [? _]. }
  assert (lstrip WHATWG_C0_CONTROL_OR_SPACE (String a sch ++ "://" ++ rest)
          = String a sch ++ "://" ++ rest) as ->.
  { rewrite append_cons. cbn [lstrip]. by rewrite Hws. }
  assert (∀ c s, scheme_chars c = false → c ≠ ":"%char → c ≠ "/"%char →
                 remove c (String a sch ++ "://" ++ s)
                 = String a sch ++ "://" ++ remove c s) as Hrm.
  { intros c s Hc Hcolon Hslash.
    rewrite remove_app, (remove_not_mem c (String a sch))
      by by apply scheme_not_mem.
    f_equal. change ("://" ++ s) with (String ":" (String "/" (String "/" s))).
    cbn [remove].
    destruct (Ascii.eqb_spec ":" c) as [<-|_]; [done|].
    destruct (Ascii.eqb_spec "/" c) as [<-|_]; done. }
  rewrite !Hrm by done.
  set (rest' := remove _ (remove _ (remove _ rest))).
  assert (split_scheme (String a sch ++ "://" ++ rest')
          = (lower (String a sch), "//" ++ rest')) as ->.
  { unfold split_scheme.
    change ("://" ++ rest') with (String ":" ("//" ++ rest')).
    rewrite find_app by by apply scheme_not_mem.
    rewrite take_app_length.
    change (take 1 (String a sch ++ String ":" ("//" ++ rest'))) with (String a "").
    rewrite Hsch. cbn [PyStr.forallb String.length]. rewrite Ha.
    cbn [andb Nat.ltb Nat.leb].
    replace (S (String.length sch) + 1)%nat
      with (String.length (String a sch ++ ":")).
    2:{ clear. induction sch as [|d sch IH]; [done|].
        rewrite !append_cons in *. cbn [String.length] in *. lia. }
    change (String a sch ++ String ":" ("//" ++ rest'))
      with (String a sch ++ ":" ++ "//" ++ rest').
    rewrite <- append_assoc. by rewrite drop_app_length. }
  destruct (split_authority ("//" ++ rest')) as [[n url]|e]; [|done].
  cbn [mbind result_bind]. by destruct (checknetloc n) as [[]|e].
Qed.

Lemma hostname_netloc (r1 r2 : ParseResult) :
  netloc r1 = netloc r2 → hostname r1 = hostname r2.
Proof. unfold hostname, hostinfo. by intros ->. Qed.

(** X15: a scheme before the authority is ignored: the resolver accepts
    [scheme://rest] exactly when it accepts [rest], and with the same
    result. *)
Theorem gen_target_scheme_ignored (a : ascii) (sch rest r : string) :
  is_ascii_alpha a = true → PyStr.forallb scheme_chars (String a sch) = true →
  contains "//" rest = false →
  gen_target (String a sch ++ "://" ++ rest) = Ok r ↔ gen_target rest = Ok r.
Proof.
  intros Ha Hsch Hrest. unfold gen_target. change recursion_limit with (S 999).
  rewrite !gen_target_rec_first.
  assert (prefixed "//" (String a sch ++ "://" ++ rest)
          = String a sch ++ "://" ++ rest) as ->.
  { unfold prefixed. by rewrite contains_app_r. }
  assert (prefixed "//" rest = "//" ++ rest) as -> by (unfold prefixed; by rewrite Hrest).
  unfold urlparse. rewrite urlsplit_scheme by done.
  destruct (urlsplit ("//" ++ rest)) as [x|e]; [|done].
  cbn [mbind result_bind netloc].
  destruct (truthy (netloc x)); [|done].
  rewrite (port_netloc _ x) by done.
  by rewrite (hostname_netloc _ x).
Qed.

End gen_target_shapes.

Lemma gen_target_no_authority_example :
  gen_target (H := Double.platform) "/restconf"
  = Raise (ValueError ["Unable to parse netloc from target URL %s!"; "///restconf"]).
Proof.
  apply (gen_target_no_authority (H := Double.platform) "/restconf");
    [reflexivity|].
  right. by exists "/"%char, "restconf".
Defined.

Lemma gen_target_scheme_ignored_example :
  gen_target (H := Double.platform) "https://Switch.Example" = Ok "switch.example:50051".
Proof.
  apply (gen_target_scheme_ignored (H := Double.platform) "h" "ttps" "Switch.Example");
    [reflexivity|reflexivity|reflexivity|].
  vm_compute. reflexivity.
Defined.
